(** * Spatial transformer: grid generator, bilinear sampler and their gradients

    A shallow embedding of [theano/tensor/nnet/spatialtf.py].

    Conventions of the embedding.
    - A [floatX] value is a rational, an infinity or NaN; the infinities
      and NaN arise as IEEE-754 prescribes (division by zero, [0 * inf],
      ...).  The functions of the source are embedded twice.  The first
      embedding computes [+], [-], [*] and [/] without rounding ([fadd],
      [fsub], [fmul], [fdiv]): it gives the shapes, the exceptions, the
      indices and the formulas of the source.  The second, module [R],
      is the same code over an arbitrary rounded arithmetic ([arith]),
      with IEEE-754 binary64, the default floatX, as an instance
      ([binary64]); statements about computed values that depend on
      rounding are made there.  Theano's graph rewrites are not part of
      the model.
    - [int64] values are integers in [Z]; the arithmetic the source does
      on [int64] tensors wraps around ([wrap64]).
    - A tensor is its shape and its row-major contents ([ndarray]).
    - A Python exception is a value of [exn]; a function that can raise
      returns a [result]. *)

From Stdlib Require Import ZArith QArith Qcanon Qround Lia Lqa List String Bool Floats.
Import ListNotations.

Open Scope Z_scope.

(* ================================================================= *)
(** ** Exceptions *)

Inductive exn : Type :=
| AssertionError
| ValueError (msg : string)
| IndexError (msg : string).

Inductive result (A : Type) : Type :=
| Ok (a : A)
| Raise (e : exn).

Arguments Ok {A} a.
Arguments Raise {A} e.
Arguments ValueError msg%_string.
Arguments IndexError msg%_string.

Definition bind {A B : Type} (r : result A) (k : A -> result B) : result B :=
  match r with
  | Ok a => k a
  | Raise e => Raise e
  end.

Notation "x <- r ;; k" := (bind r (fun x => k))
  (at level 61, r at next level, right associativity).
Notation "' p <- r ;; k" := (bind r (fun p => k))
  (at level 61, p pattern, r at next level, right associativity).

Definition assert (b : bool) : result unit :=
  if b then Ok tt else Raise AssertionError.

Definition is_ok {A : Type} (r : result A) : bool :=
  match r with Ok _ => true | Raise _ => false end.

(* ================================================================= *)
(** ** floatX: exact finite arithmetic with the IEEE special values *)

Inductive floatX : Type :=
| Fin (q : Qc)
| Inf (neg : bool)
| NaN.

(** The rational of an integer. *)
Definition Zc (z : Z) : Qc := Q2Qc (inject_Z z).

(** [theano.tensor.cast(n, floatX)] of an integer. *)
Definition of_int (z : Z) : floatX := Fin (Zc z).

Definition Qc_is_zero (q : Qc) : bool := (Qnum q =? 0)%Z.
Definition Qc_neg (q : Qc) : bool := (Qnum q <? 0)%Z.
Definition Qc_ltb (a b : Qc) : bool :=
  match (a ?= b)%Qc with Lt => true | _ => false end.

Definition floorc (q : Qc) : Z := Qfloor q.

Definition fneg (a : floatX) : floatX :=
  match a with
  | Fin q => Fin (- q)%Qc
  | Inf s => Inf (negb s)
  | NaN => NaN
  end.

Definition fadd (a b : floatX) : floatX :=
  match a, b with
  | Fin p, Fin q => Fin (p + q)%Qc
  | Fin _, Inf s => Inf s
  | Inf s, Fin _ => Inf s
  | Inf s, Inf t => if Bool.eqb s t then Inf s else NaN
  | _, _ => NaN
  end.

Definition fsub (a b : floatX) : floatX := fadd a (fneg b).

Definition fmul (a b : floatX) : floatX :=
  match a, b with
  | Fin p, Fin q => Fin (p * q)%Qc
  | Fin p, Inf s => if Qc_is_zero p then NaN else Inf (xorb s (Qc_neg p))
  | Inf s, Fin p => if Qc_is_zero p then NaN else Inf (xorb s (Qc_neg p))
  | Inf s, Inf t => Inf (xorb s t)
  | _, _ => NaN
  end.

(** True division; a zero divisor is the positive zero. *)
Definition fdiv (a b : floatX) : floatX :=
  match a, b with
  | Fin p, Fin q =>
      if Qc_is_zero q
      then (if Qc_is_zero p then NaN else Inf (Qc_neg p))
      else Fin (p / q)%Qc
  | Fin _, Inf _ => Fin 0%Qc
  | Inf s, Fin q => Inf (xorb s (Qc_neg q))
  | _, _ => NaN
  end.

Definition ffloor (a : floatX) : floatX :=
  match a with
  | Fin q => Fin (Zc (floorc q))
  | _ => a
  end.

(** Python's [%] on floats: the result has the sign of the divisor. *)
Definition fmod (a b : floatX) : floatX :=
  match a, b with
  | Fin p, Fin q =>
      if Qc_is_zero q then NaN
      else Fin (p - q * Zc (floorc (p / q)))%Qc
  | Fin p, Inf s =>
      if Qc_is_zero p || Bool.eqb (Qc_neg p) s then Fin p else Inf s
  | _, _ => NaN
  end.

(** IEEE [<]: false as soon as one side is NaN. *)
Definition flt (a b : floatX) : bool :=
  match a, b with
  | Fin p, Fin q => Qc_ltb p q
  | Fin _, Inf s => negb s
  | Inf s, Fin _ => s
  | Inf s, Inf t => s && negb t
  | _, _ => false
  end.

(** [theano.tensor.minimum]: NaN if one side is NaN. *)
Definition fminimum (a b : floatX) : floatX :=
  match a, b with
  | NaN, _ => NaN
  | _, NaN => NaN
  | _, _ => if flt a b then a else b
  end.

(** [theano.tensor.clip(x, lo, hi)]:
    [lo if x < lo else (hi if x > hi else x)]. *)
Definition fclip (x lo hi : floatX) : floatX :=
  if flt x lo then lo else if flt hi x then hi else x.


(* ================================================================= *)
(** ** int64 *)

Definition int64_min : Z := - 2 ^ 63.
Definition int64_max : Z := 2 ^ 63 - 1.

Definition wrap64 (z : Z) : Z := (z + 2 ^ 63) mod 2 ^ 64 - 2 ^ 63.

Definition add64 (a b : Z) : Z := wrap64 (a + b).
Definition mul64 (a b : Z) : Z := wrap64 (a * b).

(** [theano.tensor.cast(v, 'int64')] of a float: truncation toward zero; a
    value with no int64 image (NaN, an infinity, a finite value out of
    range) gives the "integer indefinite" value, as the x86 conversion
    does. *)
Definition to_int64 (a : floatX) : Z :=
  match a with
  | Fin q =>
      let t := Z.quot (Qnum q) (Zpos (Qden q)) in
      if (int64_min <=? t) && (t <=? int64_max) then t else int64_min
  | _ => int64_min
  end.

(* ================================================================= *)
(** ** Tensors *)

(** A tensor: its shape and its contents in row-major (C) order, as a
    function of the flat position. *)
Record ndarray (A : Type) : Type := mk_array { shape : list Z; data : Z -> A }.

Arguments mk_array {A} shape data.
Arguments shape {A} n.
Arguments data {A} n k.

Definition prod (s : list Z) : Z := fold_right Z.mul 1 s.

Fixpoint shape_eqb (s s' : list Z) : bool :=
  match s, s' with
  | [], [] => true
  | d :: s, d' :: s' => (d =? d') && shape_eqb s s'
  | _, _ => false
  end.

Definition size {A : Type} (t : ndarray A) : Z := prod (shape t).
Definition ndim {A : Type} (t : ndarray A) : nat := List.length (shape t).

(** Flat position of a multi-index, and back. *)
Fixpoint ravel (s idx : list Z) : Z :=
  match s, idx with
  | _ :: s', i :: idx' => i * prod s' + ravel s' idx'
  | _, _ => 0
  end.

Fixpoint unravel (s : list Z) (k : Z) : list Z :=
  match s with
  | [] => []
  | _ :: s' => k / prod s' :: unravel s' (k mod prod s')
  end.

Definition get {A : Type} (t : ndarray A) (idx : list Z) : A :=
  data t (ravel (shape t) idx).


Definition of_list {A : Type} (dflt : A) (s : list Z) (l : list A) : ndarray A :=
  mk_array s (fun k => nth (Z.to_nat k) l dflt).

(** Element-wise operations. *)
Definition emap {A B : Type} (f : A -> B) (t : ndarray A) : ndarray B :=
  mk_array (shape t) (fun k => f (data t k)).

Definition emap2 {A B C : Type} (f : A -> B -> C)
    (t : ndarray A) (u : ndarray B) : ndarray C :=
  mk_array (shape t) (fun k => f (data t k) (data u k)).

Definition all_nonneg (s : list Z) : bool := forallb (fun d => 0 <=? d) s.

(** [theano.tensor.ones(shape)] *)
Definition ones (s : list Z) : result (ndarray floatX) :=
  if all_nonneg s then Ok (mk_array s (fun _ => of_int 1))
  else Raise (ValueError "negative dimensions are not allowed").

(** [theano.tensor.arange(n)]: [0, 1, ..., n-1] (empty when [n <= 0]). *)
Definition arange {A : Type} (conv : Z -> A) (n : Z) : ndarray A :=
  mk_array [Z.max 0 n] conv.

(** [t.reshape(s)] for a shape without [-1]. *)
Definition reshape {A : Type} (t : ndarray A) (s : list Z) : result (ndarray A) :=
  if all_nonneg s && (prod s =? size t)
  then Ok (mk_array s (data t))
  else Raise (ValueError "total size of new array must be unchanged").

(** [t.reshape((1, -1))] *)
Definition reshape_row {A : Type} (t : ndarray A) : ndarray A :=
  mk_array [1; size t] (data t).

(** [t.reshape((-1, c))] *)
Definition reshape_rows {A : Type} (t : ndarray A) (c : Z) : result (ndarray A) :=
  if (c =? 0) || negb (size t mod c =? 0)
  then Raise (ValueError "total size of new array must be unchanged")
  else Ok (mk_array [size t / c; c] (data t)).

(** [t.flatten()] *)
Definition flatten {A : Type} (t : ndarray A) : ndarray A :=
  mk_array [size t] (data t).

(** [t.dimshuffle(pattern)]: [Some a] names the input axis [a], [None] is
    ['x'], a new axis of extent 1. *)
Fixpoint axis_position (pattern : list (option nat)) (a : nat) : nat :=
  match pattern with
  | [] => 0
  | Some b :: rest => if Nat.eqb a b then 0%nat else S (axis_position rest a)
  | None :: rest => S (axis_position rest a)
  end.

Definition pattern_axes (pattern : list (option nat)) : list nat :=
  flat_map (fun p => match p with Some a => [a] | None => [] end) pattern.

Definition valid_pattern (pattern : list (option nat)) (rank : nat) : bool :=
  Nat.eqb (List.length (pattern_axes pattern)) rank
  && forallb (fun a => existsb (Nat.eqb a) (pattern_axes pattern)) (seq 0 rank).

Definition dimshuffle_shape (pattern : list (option nat)) (s : list Z) : list Z :=
  map (fun p => match p with Some a => nth a s 1 | None => 1 end) pattern.

Definition dimshuffle_ {A : Type} (pattern : list (option nat)) (t : ndarray A)
  : ndarray A :=
  let s' := dimshuffle_shape pattern (shape t) in
  mk_array s'
    (fun k =>
       let j := unravel s' k in
       get t (map (fun a => nth (axis_position pattern a) j 0)
                  (seq 0 (ndim t)))).

Definition dimshuffle {A : Type} (pattern : list (option nat)) (t : ndarray A)
  : result (ndarray A) :=
  if valid_pattern pattern (ndim t) then Ok (dimshuffle_ pattern t)
  else Raise (ValueError "dimshuffle: pattern does not match the input").

(** Sum of [f 0 .. f (n-1)], accumulated from zero in index order. *)
Fixpoint fsum (n : nat) (f : nat -> floatX) : floatX :=
  match n with
  | O => of_int 0
  | S n' => fadd (fsum n' f) (f n')
  end.

Definition fsumZ (n : Z) (f : Z -> floatX) : floatX :=
  fsum (Z.to_nat n) (fun k => f (Z.of_nat k)).

(** [theano.tensor.dot(a, b)] for [b] a matrix: the last axis of [a] is
    contracted with the first axis of [b]. *)
Definition dot (a b : ndarray floatX) : result (ndarray floatX) :=
  match rev (shape a), shape b with
  | k :: lead, [k'; p] =>
      if k =? k'
      then Ok (mk_array (rev lead ++ [p])
                 (fun o =>
                    let r := o / p in
                    let c := o mod p in
                    fsumZ k (fun i => fmul (data a (r * k + i)) (data b (i * p + c)))))
      else Raise (ValueError "shapes not aligned")
  | _, _ => Raise (ValueError "dot: unsupported ranks")
  end.

(** [theano.tensor.concatenate(ts, axis=0)] *)
Fixpoint concat_data {A : Type} (t : ndarray A) (rest : list (ndarray A)) (k : Z) : A :=
  match rest with
  | [] => data t k
  | u :: rest' => if k <? size t then data t k else concat_data u rest' (k - size t)
  end.

Definition concatenate {A : Type} (t : ndarray A) (rest : list (ndarray A))
  : result (ndarray A) :=
  match shape t with
  | [] => Raise (ValueError "zero-dimensional arrays cannot be concatenated")
  | d :: tl =>
      if forallb (fun u => match shape u with
                           | [] => false
                           | _ :: tl' => shape_eqb tl tl'
                           end) rest
      then Ok (mk_array
                 (fold_left (fun acc u => acc + hd 0 (shape u)) rest d :: tl)
                 (concat_data t rest))
      else Raise (ValueError "all the input array dimensions except for the concatenation axis must match exactly")
  end.

(** [t[i]] (equally [t[i, :]]): the [i]-th slice along the first axis. *)
Definition index0 {A : Type} (t : ndarray A) (i : Z) : result (ndarray A) :=
  match shape t with
  | [] => Raise (IndexError "too many indices for array")
  | d :: tl =>
      if (- d <=? i) && (i <? d)
      then Ok (mk_array tl (fun k => data t ((i mod d) * prod tl + k)))
      else Raise (IndexError "index out of bounds")
  end.

(** [t[idx]] for a matrix [t] and a vector of row numbers [idx]: negative
    row numbers count from the end, a row number out of range raises. *)
Definition row_in_range (rows i : Z) : bool := (- rows <=? i) && (i <? rows).

Definition take_rows {A : Type} (t : ndarray A) (idx : ndarray Z)
  : result (ndarray A) :=
  match shape t with
  | [rows; c] =>
      if forallb (fun m => row_in_range rows (data idx (Z.of_nat m)))
                 (seq 0 (Z.to_nat (size idx)))
      then Ok (mk_array [size idx; c]
                 (fun k => data t ((data idx (k / c) mod rows) * c + k mod c)))
      else Raise (IndexError "index out of bounds")
  | _ => Raise (IndexError "take_rows: a matrix is expected")
  end.

(** [theano.tensor.repeat(v, n)] of a vector: each element [n] times. *)
Definition repeat_each {A : Type} (v : ndarray A) (n : Z) : ndarray A :=
  mk_array [size v * Z.max 0 n] (fun k => data v (k / n)).

(** [w.dimshuffle(0, 'x') * t]: the column [w] broadcast over the columns
    of the matrix [t]. *)
Definition mul_col (w t : ndarray floatX) : ndarray floatX :=
  mk_array (shape t)
    (fun k => fmul (data w (k / nth 1 (shape t) 1)) (data t k)).

(** [theano.tensor.sum([t0, t1, ...], axis=0)] *)
Definition sum_axis0 (t : ndarray floatX) (rest : list (ndarray floatX))
  : ndarray floatX :=
  mk_array (shape t)
    (fun k => fold_left (fun acc u => fadd acc (data u k)) (t :: rest) (of_int 0)).

(* ================================================================= *)
(** ** [transformer_grid_impl] *)

(** Theano linspace. *)
Definition _linspace (start stop : floatX) (num : Z) : ndarray floatX :=
  let num_f := of_int num in
  let step := fdiv (fsub stop start) (fsub num_f (of_int 1)) in
  emap (fun a => fadd (fmul a step) start) (arange of_int num).

Definition _meshgrid (height width : Z) : result (ndarray floatX) :=
  ones_h <- ones [height; 1] ;;
  lin_w <- dimshuffle [None; Some 0%nat] (_linspace (of_int (-1)) (of_int 1) width) ;;
  x_t <- dot ones_h lin_w ;;
  lin_h <- dimshuffle [Some 0%nat; None] (_linspace (of_int (-1)) (of_int 1) height) ;;
  ones_w <- ones [1; width] ;;
  y_t <- dot lin_h ones_w ;;
  let x_t_flat := reshape_row x_t in
  let y_t_flat := reshape_row y_t in
  let ones_ := emap (fun _ => of_int 1) x_t_flat in
  concatenate x_t_flat [y_t_flat; ones_].

Definition transformer_grid_impl (theta : ndarray floatX) (out_dims : Z * Z * Z * Z)
  : result (ndarray floatX) :=
  let '(num_batch, _, out_height, out_width) := out_dims in
  grid <- _meshgrid out_height out_width ;;
  (* transform a x (x_t, y_t, 1)^t -> (x_s, y_s) *)
  transformed_grid <- dot theta grid ;;
  (* dimshuffle grid into (2, num_batch, out_height * out_width) *)
  transposed_grid <- dimshuffle [Some 1%nat; Some 0%nat; Some 2%nat] transformed_grid ;;
  (* reshape into (2, num_batch, out_height, out_width) *)
  reshape transposed_grid [2; num_batch; out_height; out_width].

(* ================================================================= *)
(** ** [transformer_sampler_impl] *)

Definition border_error : exn :=
  ValueError "border_mode must be one of 'nearest', 'mirror', 'wrap'".

Section SamplerBody.

Variables inp : ndarray floatX.
(** [inp.shape] *)
Variables num_batch num_channels height width : Z.
(** [grid.shape[2]], [grid.shape[3]] *)
Variables out_height out_width : Z.
(** [grid[0, :]] and [grid[1, :]] *)
Variables grid_x grid_y : ndarray floatX.

Definition height_f : floatX := of_int height.
Definition width_f : floatX := of_int width.

Definition inp_transposed : ndarray floatX :=
  dimshuffle_ [Some 0; Some 2; Some 3; Some 1]%nat inp.

(** Scale coordinates from [-1, 1] to [0, dimension - 1]. *)
Definition x : ndarray floatX :=
  emap (fun v => fmul (fdiv (fadd v (of_int 1)) (of_int 2)) (fsub width_f (of_int 1)))
       (flatten grid_x).

Definition y : ndarray floatX :=
  emap (fun v => fmul (fdiv (fadd v (of_int 1)) (of_int 2)) (fsub height_f (of_int 1)))
       (flatten grid_y).

(** The 2x2 pixel neighbourhood surrounding the coordinates. *)
Definition x0_f : ndarray floatX := emap ffloor x.
Definition y0_f : ndarray floatX := emap ffloor y.
Definition x1_f : ndarray floatX := emap (fun v => fadd v (of_int 1)) x0_f.
Definition y1_f : ndarray floatX := emap (fun v => fadd v (of_int 1)) y0_f.

Definition clip_to (hi : floatX) (t : ndarray floatX) : ndarray floatX :=
  emap (fun v => fclip v (of_int 0) hi) t.

Definition mirror_by (period : floatX) (t : ndarray floatX) : ndarray floatX :=
  emap (fun v => fminimum (fmod v period) (fmod (fneg v) period)) t.

Definition wrap_by (extent : floatX) (t : ndarray floatX) : ndarray floatX :=
  emap (fun v => fmod v extent) t.

(** For indexing, the border mode takes care of outside pixels; the
    four results are [x0, x1, y0, y1] before the cast to int64. *)
Definition border_indices (border_mode : string)
  : result (ndarray floatX * ndarray floatX * ndarray floatX * ndarray floatX) :=
  if String.eqb border_mode "nearest" then
    Ok (clip_to (fsub width_f (of_int 1)) x0_f,
        clip_to (fsub width_f (of_int 1)) x1_f,
        clip_to (fsub height_f (of_int 1)) y0_f,
        clip_to (fsub height_f (of_int 1)) y1_f)
  else if String.eqb border_mode "mirror" then
    let w := fmul (of_int 2) (fsub width_f (of_int 1)) in
    let h := fmul (of_int 2) (fsub height_f (of_int 1)) in
    Ok (mirror_by w x0_f, mirror_by w x1_f, mirror_by h y0_f, mirror_by h y1_f)
  else if String.eqb border_mode "wrap" then
    Ok (wrap_by width_f x0_f, wrap_by width_f x1_f,
        wrap_by height_f y0_f, wrap_by height_f y1_f)
  else Raise border_error.

(** The interpolation weights (before [dimshuffle(0, 'x')]). *)
Definition wa : ndarray floatX := emap2 fmul (emap2 fsub x1_f x) (emap2 fsub y1_f y).
Definition wb : ndarray floatX := emap2 fmul (emap2 fsub x1_f x) (emap2 fsub y y0_f).
Definition wc : ndarray floatX := emap2 fmul (emap2 fsub x x0_f) (emap2 fsub y1_f y).
Definition wd : ndarray floatX := emap2 fmul (emap2 fsub x x0_f) (emap2 fsub y y0_f).

Section Gather.

(** [x0, x1, y0, y1] after the cast to int64. *)
Variables x0 x1 y0 y1 : ndarray Z.

(** The input is [num_batch, height, width, channels]; the lookup is
    done in the flattened input [num_batch*height*width, channels],
    and all indices are offset to match the flat version. *)
Definition dim2 : Z := width.
Definition dim1 : Z := mul64 width height.

Definition base : ndarray Z :=
  repeat_each (emap (fun b => mul64 b dim1) (arange (fun k => k) num_batch))
              (mul64 out_height out_width).

Definition base_y0 : ndarray Z := emap2 add64 base (emap (fun v => mul64 v dim2) y0).
Definition base_y1 : ndarray Z := emap2 add64 base (emap (fun v => mul64 v dim2) y1).
Definition idx_a : ndarray Z := emap2 add64 base_y0 x0.
Definition idx_b : ndarray Z := emap2 add64 base_y1 x0.
Definition idx_c : ndarray Z := emap2 add64 base_y0 x1.
Definition idx_d : ndarray Z := emap2 add64 base_y1 x1.

(** Look the pixels up, interpolate, and go from NHWC back to NCHW. *)
Definition gather_and_interpolate : result (ndarray floatX) :=
  if negb (size base =? size y0)
  then Raise (ValueError "Input dimension mis-match")
  else
    inp_flat <- reshape_rows inp_transposed num_channels ;;
    Ia <- take_rows inp_flat idx_a ;;
    Ib <- take_rows inp_flat idx_b ;;
    Ic <- take_rows inp_flat idx_c ;;
    Id <- take_rows inp_flat idx_d ;;
    let transformed_inputs_flat :=
      sum_axis0 (mul_col wa Ia) [mul_col wb Ib; mul_col wc Ic; mul_col wd Id] in
    transformed_inputs <-
      reshape transformed_inputs_flat
              [num_batch; out_height; out_width; num_channels] ;;
    Ok (dimshuffle_ [Some 0; Some 3; Some 1; Some 2]%nat transformed_inputs).

End Gather.

(** [x0, x1, y0, y1 = (cast(v, 'int64') for v in (x0, x1, y0, y1))] *)
Definition int_indices (border_mode : string)
  : result (ndarray Z * ndarray Z * ndarray Z * ndarray Z) :=
  '(x0, x1, y0, y1) <- border_indices border_mode ;;
  Ok (emap to_int64 x0, emap to_int64 x1, emap to_int64 y0, emap to_int64 y1).

Definition sampler_body (border_mode : string) : result (ndarray floatX) :=
  '(x0, x1, y0, y1) <- int_indices border_mode ;;
  gather_and_interpolate x0 x1 y0 y1.

End SamplerBody.

Definition transformer_sampler_impl (inp grid : ndarray floatX) (border_mode : string)
  : result (ndarray floatX) :=
  match shape inp, shape grid with
  | [num_batch; num_channels; height; width], _ :: _ :: out_height :: out_width :: _ =>
      grid_x <- index0 grid 0 ;;
      grid_y <- index0 grid 1 ;;
      sampler_body inp num_batch num_channels height width out_height out_width
                   grid_x grid_y border_mode
  | _, _ => Raise (ValueError "not enough values to unpack")
  end.

(* ================================================================= *)
(** ** [spatialtf] *)

Section Spatialtf.

(** The two graph operators of [abstract_spatialtf], as they are built
    with no argument: [AbstractTransformerGrid()] and
    [AbstractTransformerSampler()]. *)
Variable AbstractTransformerGrid :
  ndarray floatX -> Z * Z * Z * Z -> result (ndarray floatX).
Variable AbstractTransformerSampler :
  ndarray floatX -> ndarray floatX -> result (ndarray floatX).

Definition spatialtf (inp theta : ndarray floatX)
    (scale_height scale_width : floatX) (border_mode : string)
  : result (ndarray floatX) :=
  _ <- assert (Nat.eqb (ndim inp) 4) ;;
  _ <- assert (Nat.eqb (ndim theta) 3) ;;
  match shape inp with
  | [num_batch; num_channels; height; width] =>
      let out_height := to_int64 (fmul scale_height (of_int height)) in
      let out_width := to_int64 (fmul scale_width (of_int width)) in
      let out_dims := (num_batch, num_channels, out_height, out_width) in
      grid <- AbstractTransformerGrid theta out_dims ;;
      AbstractTransformerSampler inp grid
  | _ => Raise (ValueError "not enough values to unpack")
  end.

End Spatialtf.

(** [spatialtf] with the two operators bound to the implementations of
    this file; [default_mode] is the border mode the sampler operator
    has when it is built with no argument. *)
Definition spatialtf_impl (default_mode : string)
    (inp theta : ndarray floatX) (scale_height scale_width : floatX)
    (border_mode : string) : result (ndarray floatX) :=
  spatialtf transformer_grid_impl
            (fun inp grid => transformer_sampler_impl inp grid default_mode)
            inp theta scale_height scale_width border_mode.

(* ================================================================= *)
(** ** Gradients *)


Definition data_of (r : result (ndarray floatX)) (o : Z) : floatX :=
  match r with
  | Ok t => data t o
  | Raise _ => NaN
  end.



Section SamplerGradient.

(** The gradient of the sampler's output with respect to the grid, which
    is not affine in the grid: Theano's symbolic differentiation. *)
Variable grad_wrt_grid :
  ndarray floatX -> ndarray floatX -> ndarray floatX -> string ->
  result (ndarray floatX).


End SamplerGradient.


(* ================================================================= *)
(** ** Rounded arithmetic *)

(** The four arithmetic operations of floatX.  The functions of the source
    are embedded a second time below over an arbitrary [arith]; comparisons,
    [floor], [%], [clip], [minimum], negation and the casts do not round and
    are shared with the embedding above. *)
Record arith : Type := mk_arith {
  r_add : floatX -> floatX -> floatX;
  r_sub : floatX -> floatX -> floatX;
  r_mul : floatX -> floatX -> floatX;
  r_div : floatX -> floatX -> floatX
}.

(** Arithmetic without rounding. *)
Definition exact_arith : arith := mk_arith fadd fsub fmul fdiv.

(** [p = m * 2^t] with [m] odd. *)
Fixpoint odd_part (p : positive) : positive * Z :=
  match p with
  | xO p' => let (m, t) := odd_part p' in (m, t + 1)
  | _ => (p, 0)
  end.

(** The binary64 number equal to [q]; NaN if there is none with a 53-bit
    significand. *)
Definition encode (q : Qc) : float :=
  let (md, td) := odd_part (Qden q) in
  match Qnum q with
  | Z0 => PrimFloat.zero
  | Zpos n =>
      let (m, t) := odd_part n in
      if Pos.eqb md 1 && (Zpos m <? 2 ^ 53)
      then SF2Prim (S754_finite false m (t - td)) else PrimFloat.nan
  | Zneg n =>
      let (m, t) := odd_part n in
      if Pos.eqb md 1 && (Zpos m <? 2 ^ 53)
      then SF2Prim (S754_finite true m (t - td)) else PrimFloat.nan
  end.

Definition to_float (a : floatX) : float :=
  match a with
  | Fin q => encode q
  | Inf s => if s then PrimFloat.neg_infinity else PrimFloat.infinity
  | NaN => PrimFloat.nan
  end.

(** The value of a binary64 number (the sign of a zero is dropped). *)
Definition of_float (f : float) : floatX :=
  match Prim2SF f with
  | S754_zero _ => Fin (Zc 0)
  | S754_infinity s => Inf s
  | S754_nan => NaN
  | S754_finite s m e =>
      let n := if s then Zneg m else Zpos m in
      Fin (Q2Qc (if 0 <=? e then inject_Z (n * 2 ^ e)
                 else Qmake n (Z.to_pos (2 ^ (- e)))))
  end.

(** IEEE-754 binary64 arithmetic, rounding to nearest, ties to even:
    the operation of the processor on the operands' binary64 numbers. *)
Definition binary64 : arith :=
  mk_arith (fun a b => of_float (PrimFloat.add (to_float a) (to_float b)))
           (fun a b => of_float (PrimFloat.sub (to_float a) (to_float b)))
           (fun a b => of_float (PrimFloat.mul (to_float a) (to_float b)))
           (fun a b => of_float (PrimFloat.div (to_float a) (to_float b))).

(* ================================================================= *)
(** ** The functions of the source over rounded arithmetic *)

Module R.

Section Arith.

Variable A : arith.

(** Sum of [f 0 .. f (n-1)], accumulated from zero in index order. *)
Fixpoint fsum (n : nat) (f : nat -> floatX) : floatX :=
  match n with
  | O => of_int 0
  | S n' => r_add A (fsum n' f) (f n')
  end.

Definition fsumZ (n : Z) (f : Z -> floatX) : floatX :=
  fsum (Z.to_nat n) (fun k => f (Z.of_nat k)).

(** [theano.tensor.dot(a, b)] for [b] a matrix. *)
Definition dot (a b : ndarray floatX) : result (ndarray floatX) :=
  match rev (shape a), shape b with
  | k :: lead, [k'; p] =>
      if k =? k'
      then Ok (mk_array (rev lead ++ [p])
                 (fun o =>
                    let r := o / p in
                    let c := o mod p in
                    fsumZ k (fun i => r_mul A (data a (r * k + i)) (data b (i * p + c)))))
      else Raise (ValueError "shapes not aligned")
  | _, _ => Raise (ValueError "dot: unsupported ranks")
  end.

(** [w.dimshuffle(0, 'x') * t] *)
Definition mul_col (w t : ndarray floatX) : ndarray floatX :=
  mk_array (shape t)
    (fun k => r_mul A (data w (k / nth 1 (shape t) 1)) (data t k)).

(** [theano.tensor.sum([t0, t1, ...], axis=0)] *)
Definition sum_axis0 (t : ndarray floatX) (rest : list (ndarray floatX))
  : ndarray floatX :=
  mk_array (shape t)
    (fun k => fold_left (fun acc u => r_add A acc (data u k)) (t :: rest) (of_int 0)).

(** Theano linspace. *)
Definition _linspace (start stop : floatX) (num : Z) : ndarray floatX :=
  let num_f := of_int num in
  let step := r_div A (r_sub A stop start) (r_sub A num_f (of_int 1)) in
  emap (fun a => r_add A (r_mul A a step) start) (arange of_int num).

Definition _meshgrid (height width : Z) : result (ndarray floatX) :=
  ones_h <- ones [height; 1] ;;
  lin_w <- dimshuffle [None; Some 0%nat] (_linspace (of_int (-1)) (of_int 1) width) ;;
  x_t <- dot ones_h lin_w ;;
  lin_h <- dimshuffle [Some 0%nat; None] (_linspace (of_int (-1)) (of_int 1) height) ;;
  ones_w <- ones [1; width] ;;
  y_t <- dot lin_h ones_w ;;
  let x_t_flat := reshape_row x_t in
  let y_t_flat := reshape_row y_t in
  let ones_ := emap (fun _ => of_int 1) x_t_flat in
  concatenate x_t_flat [y_t_flat; ones_].

Definition transformer_grid_impl (theta : ndarray floatX) (out_dims : Z * Z * Z * Z)
  : result (ndarray floatX) :=
  let '(num_batch, _, out_height, out_width) := out_dims in
  grid <- _meshgrid out_height out_width ;;
  transformed_grid <- dot theta grid ;;
  transposed_grid <- dimshuffle [Some 1%nat; Some 0%nat; Some 2%nat] transformed_grid ;;
  reshape transposed_grid [2; num_batch; out_height; out_width].

Section SamplerBody.

Variables inp : ndarray floatX.
Variables num_batch num_channels height width : Z.
Variables out_height out_width : Z.
Variables grid_x grid_y : ndarray floatX.

(** Scale coordinates from [-1, 1] to [0, dimension - 1]. *)
Definition x : ndarray floatX :=
  emap (fun v => r_mul A (r_div A (r_add A v (of_int 1)) (of_int 2))
                         (r_sub A (width_f width) (of_int 1)))
       (flatten grid_x).

Definition y : ndarray floatX :=
  emap (fun v => r_mul A (r_div A (r_add A v (of_int 1)) (of_int 2))
                         (r_sub A (height_f height) (of_int 1)))
       (flatten grid_y).

Definition x0_f : ndarray floatX := emap ffloor x.
Definition y0_f : ndarray floatX := emap ffloor y.
Definition x1_f : ndarray floatX := emap (fun v => r_add A v (of_int 1)) x0_f.
Definition y1_f : ndarray floatX := emap (fun v => r_add A v (of_int 1)) y0_f.

Definition border_indices (border_mode : string)
  : result (ndarray floatX * ndarray floatX * ndarray floatX * ndarray floatX) :=
  if String.eqb border_mode "nearest" then
    Ok (clip_to (r_sub A (width_f width) (of_int 1)) x0_f,
        clip_to (r_sub A (width_f width) (of_int 1)) x1_f,
        clip_to (r_sub A (height_f height) (of_int 1)) y0_f,
        clip_to (r_sub A (height_f height) (of_int 1)) y1_f)
  else if String.eqb border_mode "mirror" then
    let w := r_mul A (of_int 2) (r_sub A (width_f width) (of_int 1)) in
    let h := r_mul A (of_int 2) (r_sub A (height_f height) (of_int 1)) in
    Ok (mirror_by w x0_f, mirror_by w x1_f, mirror_by h y0_f, mirror_by h y1_f)
  else if String.eqb border_mode "wrap" then
    Ok (wrap_by (width_f width) x0_f, wrap_by (width_f width) x1_f,
        wrap_by (height_f height) y0_f, wrap_by (height_f height) y1_f)
  else Raise border_error.

(** The interpolation weights. *)
Definition wa : ndarray floatX :=
  emap2 (r_mul A) (emap2 (r_sub A) x1_f x) (emap2 (r_sub A) y1_f y).
Definition wb : ndarray floatX :=
  emap2 (r_mul A) (emap2 (r_sub A) x1_f x) (emap2 (r_sub A) y y0_f).
Definition wc : ndarray floatX :=
  emap2 (r_mul A) (emap2 (r_sub A) x x0_f) (emap2 (r_sub A) y1_f y).
Definition wd : ndarray floatX :=
  emap2 (r_mul A) (emap2 (r_sub A) x x0_f) (emap2 (r_sub A) y y0_f).

(** The gather, with the int64 index arithmetic of the embedding above. *)
Definition gather_and_interpolate (x0 x1 y0 y1 : ndarray Z)
  : result (ndarray floatX) :=
  if negb (size (base num_batch height width out_height out_width) =? size y0)
  then Raise (ValueError "Input dimension mis-match")
  else
    inp_flat <- reshape_rows (inp_transposed inp) num_channels ;;
    Ia <- take_rows inp_flat (idx_a num_batch height width out_height out_width x0 y0) ;;
    Ib <- take_rows inp_flat (idx_b num_batch height width out_height out_width x0 y1) ;;
    Ic <- take_rows inp_flat (idx_c num_batch height width out_height out_width x1 y0) ;;
    Id <- take_rows inp_flat (idx_d num_batch height width out_height out_width x1 y1) ;;
    let transformed_inputs_flat :=
      sum_axis0 (mul_col wa Ia) [mul_col wb Ib; mul_col wc Ic; mul_col wd Id] in
    transformed_inputs <-
      reshape transformed_inputs_flat
              [num_batch; out_height; out_width; num_channels] ;;
    Ok (dimshuffle_ [Some 0; Some 3; Some 1; Some 2]%nat transformed_inputs).

Definition int_indices (border_mode : string)
  : result (ndarray Z * ndarray Z * ndarray Z * ndarray Z) :=
  '(x0, x1, y0, y1) <- border_indices border_mode ;;
  Ok (emap to_int64 x0, emap to_int64 x1, emap to_int64 y0, emap to_int64 y1).

Definition sampler_body (border_mode : string) : result (ndarray floatX) :=
  '(x0, x1, y0, y1) <- int_indices border_mode ;;
  gather_and_interpolate x0 x1 y0 y1.

End SamplerBody.

Definition transformer_sampler_impl (inp grid : ndarray floatX) (border_mode : string)
  : result (ndarray floatX) :=
  match shape inp, shape grid with
  | [num_batch; num_channels; height; width], _ :: _ :: out_height :: out_width :: _ =>
      grid_x <- index0 grid 0 ;;
      grid_y <- index0 grid 1 ;;
      sampler_body inp num_batch num_channels height width out_height out_width
                   grid_x grid_y border_mode
  | _, _ => Raise (ValueError "not enough values to unpack")
  end.

Definition spatialtf
    (AbstractTransformerGrid :
       ndarray floatX -> Z * Z * Z * Z -> result (ndarray floatX))
    (AbstractTransformerSampler :
       ndarray floatX -> ndarray floatX -> result (ndarray floatX))
    (inp theta : ndarray floatX)
    (scale_height scale_width : floatX) (border_mode : string)
  : result (ndarray floatX) :=
  _ <- assert (Nat.eqb (ndim inp) 4) ;;
  _ <- assert (Nat.eqb (ndim theta) 3) ;;
  match shape inp with
  | [num_batch; num_channels; height; width] =>
      let out_height := to_int64 (r_mul A scale_height (of_int height)) in
      let out_width := to_int64 (r_mul A scale_width (of_int width)) in
      let out_dims := (num_batch, num_channels, out_height, out_width) in
      grid <- AbstractTransformerGrid theta out_dims ;;
      AbstractTransformerSampler inp grid
  | _ => Raise (ValueError "not enough values to unpack")
  end.

Definition spatialtf_impl (default_mode : string)
    (inp theta : ndarray floatX) (scale_height scale_width : floatX)
    (border_mode : string) : result (ndarray floatX) :=
  spatialtf transformer_grid_impl
            (fun inp grid => transformer_sampler_impl inp grid default_mode)
            inp theta scale_height scale_width border_mode.

End Arith.

End R.

(** Over arithmetic without rounding these are the functions of the
    embedding above. *)
Lemma exact_grid_impl :
  R.transformer_grid_impl exact_arith = transformer_grid_impl.
Proof. reflexivity. Qed.

Lemma exact_sampler_impl :
  R.transformer_sampler_impl exact_arith = transformer_sampler_impl.
Proof. reflexivity. Qed.

Lemma exact_spatialtf_impl :
  R.spatialtf_impl exact_arith = spatialtf_impl.
Proof. reflexivity. Qed.

Lemma exact_int_indices :
  R.int_indices exact_arith = int_indices.
Proof. reflexivity. Qed.

(* ================================================================= *)
(** ** Building and comparing concrete tensors *)

Definition finite_array (s : list Z) (v : Z -> Qc) : ndarray floatX :=
  mk_array s (fun k => Fin (v k)).

Definition of_ints (s : list Z) (l : list Z) : ndarray floatX :=
  of_list NaN s (map of_int l).

Definition of_rationals (s : list Z) (l : list Q) : ndarray floatX :=
  of_list NaN s (map (fun q => Fin (Q2Qc q)) l).

Definition feqb (a b : floatX) : bool :=
  match a, b with
  | Fin p, Fin q => Qc_eq_bool p q
  | Inf s, Inf t => Bool.eqb s t
  | NaN, NaN => true
  | _, _ => false
  end.

Fixpoint list_feqb (l l' : list floatX) : bool :=
  match l, l' with
  | [], [] => true
  | a :: l, b :: l' => feqb a b && list_feqb l l'
  | _, _ => false
  end.



(* ================================================================= *)
(** ** Rational arithmetic *)

Ltac qc_to_q :=
  unfold Qcle, Qclt, Qcminus, Qcdiv in *;
  unfold Qcplus, Qcmult, Qcopp, Qcinv, Zc, Q2Qc in *;
  cbn [this] in *;
  repeat rewrite !Qred_correct in *.

Lemma Zc_add (a b : Z) : Zc (a + b) = (Zc a + Zc b)%Qc.
Proof. apply Qc_is_canon. qc_to_q. rewrite inject_Z_plus. reflexivity. Qed.

Lemma Zc_mul (a b : Z) : Zc (a * b) = (Zc a * Zc b)%Qc.
Proof. apply Qc_is_canon. qc_to_q. rewrite inject_Z_mult. reflexivity. Qed.

Lemma Zc_opp (a : Z) : Zc (- a) = (- Zc a)%Qc.
Proof. apply Qc_is_canon. qc_to_q. rewrite inject_Z_opp. reflexivity. Qed.

Lemma Zc_sub (a b : Z) : Zc (a - b) = (Zc a - Zc b)%Qc.
Proof. unfold Z.sub, Qcminus. now rewrite Zc_add, Zc_opp. Qed.

Lemma Zc_le (a b : Z) : a <= b <-> (Zc a <= Zc b)%Qc.
Proof. qc_to_q. rewrite Zle_Qle. reflexivity. Qed.

Lemma Zc_lt (a b : Z) : a < b <-> (Zc a < Zc b)%Qc.
Proof. qc_to_q. rewrite Zlt_Qlt. reflexivity. Qed.


Lemma Zc_0 : Zc 0 = 0%Qc.
Proof. reflexivity. Qed.

Lemma Zc_1 : Zc 1 = 1%Qc.
Proof. reflexivity. Qed.

Lemma Qred_inject_Z (z : Z) : Qred (inject_Z z) = inject_Z z.
Proof. apply Qred_identity. cbn. apply Z.gcd_1_r. Qed.

Lemma Zc_num (z : Z) : Qnum (Zc z) = z.
Proof. unfold Zc, Q2Qc. cbn [this]. now rewrite Qred_inject_Z. Qed.

Lemma Zc_den (z : Z) : Qden (Zc z) = 1%positive.
Proof. unfold Zc, Q2Qc. cbn [this]. now rewrite Qred_inject_Z. Qed.

Lemma Qc_is_zero_Zc (z : Z) : Qc_is_zero (Zc z) = (z =? 0).
Proof. unfold Qc_is_zero. now rewrite Zc_num. Qed.


Lemma Qc_ltb_lt (a b : Qc) : Qc_ltb a b = true <-> (a < b)%Qc.
Proof.
  unfold Qc_ltb. rewrite Qclt_alt. destruct (a ?= b)%Qc; split; congruence.
Qed.

Lemma Qc_ltb_ge (a b : Qc) : Qc_ltb a b = false <-> (b <= a)%Qc.
Proof.
  split; intros H.
  - apply Qcnot_lt_le. intros L. apply Qc_ltb_lt in L. congruence.
  - destruct (Qc_ltb a b) eqn:E; [|reflexivity].
    apply Qc_ltb_lt in E. now apply Qcle_not_lt in H.
Qed.

Lemma Zc_ltb (a b : Z) : Qc_ltb (Zc a) (Zc b) = (a <? b).
Proof.
  destruct (a <? b) eqn:E.
  - apply Z.ltb_lt in E. apply Qc_ltb_lt. apply -> Zc_lt. exact E.
  - apply Z.ltb_ge in E. apply Qc_ltb_ge. apply -> Zc_le. exact E.
Qed.


Lemma floorc_spec (q : Qc) : (Zc (floorc q) <= q /\ q < Zc (floorc q) + 1)%Qc.
Proof.
  unfold floorc. split; qc_to_q.
  - apply Qfloor_le.
  - pose proof (Qlt_floor q) as H. rewrite inject_Z_plus in H. exact H.
Qed.

Lemma floorc_unique (q : Qc) (z : Z) :
  (Zc z <= q)%Qc -> (q < Zc z + 1)%Qc -> floorc q = z.
Proof.
  intros L U. destruct (floorc_spec q) as [L' U'].
  assert (z < floorc q + 1).
  { apply Zc_lt. rewrite Zc_add. eapply Qcle_lt_trans; eassumption. }
  assert (floorc q < z + 1).
  { apply Zc_lt. rewrite Zc_add. eapply Qcle_lt_trans; eassumption. }
  lia.
Qed.

(** Floor of a quotient of integers is the integer quotient. *)
Lemma floorc_div (a b : Z) : 0 < b -> floorc (Zc a / Zc b) = a / b.
Proof.
  intros Hb.
  assert (Hb' : (0 < Zc b)%Qc) by (rewrite <- Zc_0; now apply -> Zc_lt).
  assert (Hne : Zc b <> 0%Qc) by (intros E; rewrite E in Hb'; now apply Qclt_not_eq in Hb').
  pose proof (Z.mul_div_le a b Hb) as L.
  pose proof (Z.mul_succ_div_gt a b Hb) as U.
  assert (E : (Zc a / Zc b * Zc b = Zc a)%Qc) by (field; exact Hne).
  apply floorc_unique.
  - apply Qcmult_lt_0_le_reg_r with (z := Zc b); [exact Hb'|].
    rewrite E, <- Zc_mul. apply -> Zc_le. lia.
  - apply Qcnot_le_lt. intros C.
    apply Qcmult_le_compat_r with (z := Zc b) in C; [|now apply Qclt_le_weak].
    rewrite E, <- Zc_1, <- Zc_add, <- Zc_mul in C. apply <- Zc_le in C. lia.
Qed.

Lemma fmod_int (a b : Z) :
  0 < b -> fmod (Fin (Zc a)) (Fin (Zc b)) = Fin (Zc (a mod b)).
Proof.
  intros Hb. cbn. rewrite Qc_is_zero_Zc.
  replace (b =? 0) with false by (symmetry; apply Z.eqb_neq; lia).
  rewrite floorc_div by exact Hb. f_equal.
  rewrite <- Zc_mul, <- Zc_sub. f_equal. rewrite Z.mod_eq by lia. reflexivity.
Qed.

Lemma fneg_int (a : Z) : fneg (Fin (Zc a)) = Fin (Zc (- a)).
Proof. cbn. now rewrite Zc_opp. Qed.

Lemma fminimum_int (a b : Z) :
  fminimum (Fin (Zc a)) (Fin (Zc b)) = Fin (Zc (Z.min a b)).
Proof.
  cbn. rewrite Zc_ltb. destruct (a <? b) eqn:E; f_equal; f_equal; lia.
Qed.

Lemma fclip_int (z hi : Z) :
  0 <= hi ->
  fclip (Fin (Zc z)) (of_int 0) (Fin (Zc hi)) = Fin (Zc (Z.max 0 (Z.min z hi))).
Proof.
  intros H. unfold fclip, of_int. cbn [flt]. rewrite !Zc_ltb.
  destruct (z <? 0) eqn:E; [f_equal; f_equal; lia|].
  destruct (hi <? z) eqn:E'; f_equal; f_equal; lia.
Qed.

Lemma to_int64_int (z : Z) :
  int64_min <= z <= int64_max -> to_int64 (Fin (Zc z)) = z.
Proof.
  intros H. unfold to_int64. rewrite Zc_num, Zc_den, Z.quot_1_r.
  destruct (int64_min <=? z) eqn:A, (z <=? int64_max) eqn:B; cbn; lia.
Qed.

Lemma wrap64_small (z : Z) : int64_min <= z <= int64_max -> wrap64 z = z.
Proof.
  unfold int64_min, int64_max, wrap64. intros H.
  rewrite Z.mod_small; lia.
Qed.

Lemma feqb_eq (a b : floatX) : feqb a b = true -> a = b.
Proof.
  destruct a, b; cbn; try discriminate; intros H.
  - f_equal. now apply Qc_eq_bool_correct.
  - f_equal. now apply Bool.eqb_prop.
  - reflexivity.
Qed.

Lemma list_feqb_eq (l l' : list floatX) : list_feqb l l' = true -> l = l'.
Proof.
  revert l'. induction l as [|a l IH]; intros [|b l']; cbn; try discriminate.
  - reflexivity.
  - intros H. apply andb_prop in H. destruct H as [H1 H2].
    f_equal; [now apply feqb_eq | now apply IH].
Qed.

(* ================================================================= *)
(** ** Pixel coordinates and interpolation weights *)

(** The pixel coordinate [(g + 1) / 2 * (extent - 1)] of a finite grid value. *)
Definition pixel (g : Qc) (extent : Z) : Qc := ((g + 1) / Zc 2 * (Zc extent - 1))%Qc.

Lemma pixel_coord (g : Qc) (extent : Z) :
  fmul (fdiv (fadd (Fin g) (of_int 1)) (of_int 2)) (fsub (of_int extent) (of_int 1))
  = Fin (pixel g extent).
Proof. reflexivity. Qed.

Lemma x_finite (width : Z) (s : list Z) (gx : Z -> Qc) (m : Z) :
  data (x width (finite_array s gx)) m = Fin (pixel (gx m) width).
Proof. reflexivity. Qed.

Lemma y_finite (height : Z) (s : list Z) (gy : Z -> Qc) (m : Z) :
  data (y height (finite_array s gy)) m = Fin (pixel (gy m) height).
Proof. reflexivity. Qed.

(* ================================================================= *)
(** ** Border modes *)

Lemma sampler_rejects_unknown_mode :
  forall (inp grid : ndarray floatX) (border_mode : string)
         (n c h w g0 g1 oh ow : Z) (rest : list Z),
    shape inp = [n; c; h; w] ->
    shape grid = g0 :: g1 :: oh :: ow :: rest ->
    2 <= g0 ->
    border_mode <> "nearest"%string ->
    border_mode <> "mirror"%string ->
    border_mode <> "wrap"%string ->
    transformer_sampler_impl inp grid border_mode = Raise border_error.
Proof.
  intros inp grid border_mode n c h w g0 g1 oh ow rest Hi Hg H2 Hn Hm Hw.
  unfold transformer_sampler_impl, index0. rewrite Hi, Hg.
  replace ((- g0 <=? 0) && (0 <? g0)) with true
    by (symmetry; apply andb_true_intro; split; [apply Z.leb_le | apply Z.ltb_lt]; lia).
  replace ((- g0 <=? 1) && (1 <? g0)) with true
    by (symmetry; apply andb_true_intro; split; [apply Z.leb_le | apply Z.ltb_lt]; lia).
  cbn [bind]. unfold sampler_body, int_indices, border_indices.
  apply String.eqb_neq in Hn, Hm, Hw. rewrite Hn, Hm, Hw. reflexivity.
Qed.

(** C8. On a 4-D input and a grid with its two coordinate planes, a border
    mode other than 'nearest', 'mirror' and 'wrap' makes the sampler raise
    the configuration error, whatever the contents of the input and of the
    grid: no pixel is looked up and no mode is substituted. *)
Theorem unknown_border_mode_raises :
  forall (inp grid : ndarray floatX) (border_mode : string)
         (n c h w g0 g1 oh ow : Z) (rest : list Z),
    shape inp = [n; c; h; w] ->
    shape grid = g0 :: g1 :: oh :: ow :: rest ->
    2 <= g0 ->
    border_mode <> "nearest"%string ->
    border_mode <> "mirror"%string ->
    border_mode <> "wrap"%string ->
    transformer_sampler_impl inp grid border_mode = Raise border_error.
Proof. exact sampler_rejects_unknown_mode. Qed.

Lemma unknown_border_mode_raises_witness :
  transformer_sampler_impl (of_ints [1; 1; 2; 2] [1; 2; 3; 4])
                           (of_ints [2; 1; 1; 1] [0; 0]) "bilinear"
  = Raise border_error.
Proof.
  apply (unknown_border_mode_raises _ _ _ 1 1 2 2 2 1 1 1 []);
    solve [reflexivity | lia | discriminate].
Defined.

(** C4. With an input of width 4, at an output location whose grid value
    gives the pixel coordinate 4.3 (so [x0_f = 4] and [x1_f = 5]), the
    integer column numbers are: 3 and 3 under 'nearest'; [4 mod 4 = 0] and
    [5 mod 4 = 1] under 'wrap'; and under 'mirror' the minimum of
    [v mod 2(W-1)] and [-v mod 2(W-1)] for [v = 4] and [v = 5], i.e. 2 and 1. *)
Theorem border_cases_width_4 :
  forall (height : Z) (grid_x grid_y : ndarray floatX) (m : Z),
    data grid_x m = Fin (Q2Qc (28 # 15)) ->
    data (x 4 grid_x) m = Fin (Q2Qc (43 # 10)) /\
    data (x0_f 4 grid_x) m = of_int 4 /\
    data (x1_f 4 grid_x) m = of_int 5 /\
    (exists x0 x1 y0 y1,
        int_indices height 4 grid_x grid_y "nearest" = Ok (x0, x1, y0, y1) /\
        data x0 m = 3 /\ data x1 m = 3) /\
    (exists x0 x1 y0 y1,
        int_indices height 4 grid_x grid_y "wrap" = Ok (x0, x1, y0, y1) /\
        data x0 m = 4 mod 4 /\ data x0 m = 0 /\
        data x1 m = 5 mod 4 /\ data x1 m = 1) /\
    (exists x0 x1 y0 y1,
        int_indices height 4 grid_x grid_y "mirror" = Ok (x0, x1, y0, y1) /\
        data x0 m = Z.min (4 mod (2 * (4 - 1))) ((- 4) mod (2 * (4 - 1))) /\
        data x0 m = 2 /\
        data x1 m = Z.min (5 mod (2 * (4 - 1))) ((- 5) mod (2 * (4 - 1))) /\
        data x1 m = 1).
Proof.
  intros height grid_x grid_y m Hg.
  assert (Hx : data (x 4 grid_x) m = Fin (Q2Qc (43 # 10))).
  { cbn. rewrite Hg. apply feqb_eq. vm_compute. reflexivity. }
  assert (H0 : data (x0_f 4 grid_x) m = of_int 4).
  { change (ffloor (data (x 4 grid_x) m) = of_int 4). rewrite Hx.
    apply feqb_eq. vm_compute. reflexivity. }
  assert (H1 : data (x1_f 4 grid_x) m = of_int 5).
  { change (fadd (data (x0_f 4 grid_x) m) (of_int 1) = of_int 5). rewrite H0.
    apply feqb_eq. vm_compute. reflexivity. }
  split; [exact Hx|]. split; [exact H0|]. split; [exact H1|].
  unfold int_indices, border_indices. cbn [String.eqb Ascii.eqb Bool.eqb bind].
  repeat split.
  - do 4 eexists. split; [reflexivity|].
    cbn [data emap clip_to]. rewrite H0, H1. split; vm_compute; reflexivity.
  - do 4 eexists. split; [reflexivity|].
    cbn [data emap wrap_by]. rewrite H0, H1. repeat split; vm_compute; reflexivity.
  - do 4 eexists. split; [reflexivity|].
    cbn [data emap mirror_by]. rewrite H0, H1. repeat split; vm_compute; reflexivity.
Qed.

Lemma border_cases_width_4_witness :
  data (x 4 (of_rationals [1] [28 # 15])) 0 = Fin (Q2Qc (43 # 10)).
Proof.
  apply (border_cases_width_4 2 (of_rationals [1] [28 # 15])
                              (of_rationals [1] [0%Q]) 0).
  reflexivity.
Defined.

(** The integer row or column number each border mode gives to the
    integer coordinate [z] on an axis of extent [n]. *)
Definition border_index (border_mode : string) (n z : Z) : Z :=
  if String.eqb border_mode "nearest" then Z.max 0 (Z.min z (n - 1))
  else if String.eqb border_mode "mirror"
       then Z.min (z mod (2 * (n - 1))) ((- z) mod (2 * (n - 1)))
       else z mod n.

Lemma fsub_int (a b : Z) : fsub (of_int a) (of_int b) = of_int (a - b).
Proof. unfold of_int. cbn. now rewrite Zc_sub. Qed.

Lemma fadd_int (a b : Z) : fadd (of_int a) (of_int b) = of_int (a + b).
Proof. unfold of_int. cbn. now rewrite Zc_add. Qed.

Lemma fmul_int (a b : Z) : fmul (of_int a) (of_int b) = of_int (a * b).
Proof. unfold of_int. cbn. now rewrite Zc_mul. Qed.

Lemma ffloor_fin (q : Qc) : ffloor (Fin q) = of_int (floorc q).
Proof. reflexivity. Qed.

Lemma mirror_le (n z : Z) :
  2 <= n ->
  0 <= Z.min (z mod (2 * (n - 1))) ((- z) mod (2 * (n - 1))) <= n - 1.
Proof.
  intros Hn. set (w := 2 * (n - 1)).
  assert (Hw : 0 < w) by (unfold w; lia).
  pose proof (Z.mod_pos_bound z w Hw) as B1.
  pose proof (Z.mod_pos_bound (- z) w Hw) as B2.
  destruct (Z.eq_dec (z mod w) 0) as [E|E].
  - rewrite E. lia.
  - rewrite (Z_mod_nz_opp_full z w E). unfold w in *. lia.
Qed.

Lemma border_index_range (border_mode : string) (n z : Z) :
  In border_mode ["nearest"; "mirror"; "wrap"]%string ->
  2 <= n -> 0 <= border_index border_mode n z <= n - 1.
Proof.
  intros Hm Hn. unfold border_index.
  destruct Hm as [<-|[<-|[<-|[]]]]; cbn [String.eqb Ascii.eqb Bool.eqb].
  - lia.
  - now apply mirror_le.
  - pose proof (Z.mod_pos_bound z n). lia.
Qed.

(** What [border_indices] computes at an integer coordinate. *)
Lemma clip_value (n z : Z) :
  1 <= n ->
  fclip (of_int z) (of_int 0) (fsub (of_int n) (of_int 1))
  = of_int (border_index "nearest" n z).
Proof.
  intros Hn. rewrite fsub_int. unfold of_int at 1 3. rewrite fclip_int by lia.
  reflexivity.
Qed.

Lemma mirror_value (n z : Z) :
  2 <= n ->
  fminimum (fmod (of_int z) (fmul (of_int 2) (fsub (of_int n) (of_int 1))))
           (fmod (fneg (of_int z)) (fmul (of_int 2) (fsub (of_int n) (of_int 1))))
  = of_int (border_index "mirror" n z).
Proof.
  intros Hn. rewrite fsub_int, fmul_int. unfold of_int.
  rewrite fneg_int, !fmod_int by lia. rewrite fminimum_int. reflexivity.
Qed.

Lemma wrap_value (n z : Z) :
  1 <= n -> fmod (of_int z) (of_int n) = of_int (border_index "wrap" n z).
Proof. intros Hn. unfold of_int. rewrite fmod_int by lia. reflexivity. Qed.

Section IndexValues.

Variables height width : Z.
Variables grid_x grid_y : ndarray floatX.

Hypothesis height_ge : 2 <= height.
Hypothesis width_ge : 2 <= width.

Lemma x_value (m : Z) (g : Qc) :
  data grid_x m = Fin g -> data (x width grid_x) m = Fin (pixel g width).
Proof. cbn [data x emap flatten]. intros ->. reflexivity. Qed.

Lemma y_value (m : Z) (g : Qc) :
  data grid_y m = Fin g -> data (y height grid_y) m = Fin (pixel g height).
Proof. cbn [data y emap flatten]. intros ->. reflexivity. Qed.

Lemma x0_f_value (m : Z) (g : Qc) :
  data grid_x m = Fin g ->
  data (x0_f width grid_x) m = of_int (floorc (pixel g width)).
Proof.
  intros Hg. change (ffloor (data (x width grid_x) m) = of_int (floorc (pixel g width))).
  now rewrite (x_value m g Hg).
Qed.

Lemma x1_f_value (m : Z) (g : Qc) :
  data grid_x m = Fin g ->
  data (x1_f width grid_x) m = of_int (floorc (pixel g width) + 1).
Proof.
  intros Hg.
  change (fadd (data (x0_f width grid_x) m) (of_int 1) = of_int (floorc (pixel g width) + 1)).
  rewrite (x0_f_value m g Hg). apply fadd_int.
Qed.

Lemma y0_f_value (m : Z) (g : Qc) :
  data grid_y m = Fin g ->
  data (y0_f height grid_y) m = of_int (floorc (pixel g height)).
Proof.
  intros Hg. change (ffloor (data (y height grid_y) m) = of_int (floorc (pixel g height))).
  now rewrite (y_value m g Hg).
Qed.

Lemma y1_f_value (m : Z) (g : Qc) :
  data grid_y m = Fin g ->
  data (y1_f height grid_y) m = of_int (floorc (pixel g height) + 1).
Proof.
  intros Hg.
  change (fadd (data (y0_f height grid_y) m) (of_int 1) = of_int (floorc (pixel g height) + 1)).
  rewrite (y0_f_value m g Hg). apply fadd_int.
Qed.

(** The four integer index vectors of a recognized border mode, at the
    output locations where the grid is finite. *)
Lemma int_indices_value (border_mode : string) :
  In border_mode ["nearest"; "mirror"; "wrap"]%string ->
  exists x0 x1 y0 y1,
    int_indices height width grid_x grid_y border_mode = Ok (x0, x1, y0, y1) /\
    size y0 = size grid_y /\
    (forall m g,
        data grid_x m = Fin g ->
        data x0 m = to_int64 (of_int (border_index border_mode width (floorc (pixel g width)))) /\
        data x1 m = to_int64 (of_int (border_index border_mode width (floorc (pixel g width) + 1)))) /\
    (forall m g,
        data grid_y m = Fin g ->
        data y0 m = to_int64 (of_int (border_index border_mode height (floorc (pixel g height)))) /\
        data y1 m = to_int64 (of_int (border_index border_mode height (floorc (pixel g height) + 1)))).
Proof.
  intros Hm. unfold int_indices, border_indices.
  destruct Hm as [<-|[<-|[<-|[]]]]; cbn [String.eqb Ascii.eqb Bool.eqb bind];
    do 4 eexists; (split; [reflexivity|]);
    (split; [unfold size at 1;
             cbn [shape emap clip_to mirror_by wrap_by y0_f y flatten prod fold_right];
             apply Z.mul_1_r|]);
    (split; intros m g Hg; cbn [data emap clip_to mirror_by wrap_by]).
  - rewrite (x0_f_value m g Hg), (x1_f_value m g Hg).
    unfold width_f. rewrite !clip_value by lia. auto.
  - rewrite (y0_f_value m g Hg), (y1_f_value m g Hg).
    unfold height_f. rewrite !clip_value by lia. auto.
  - rewrite (x0_f_value m g Hg), (x1_f_value m g Hg).
    unfold width_f. rewrite !mirror_value by lia. auto.
  - rewrite (y0_f_value m g Hg), (y1_f_value m g Hg).
    unfold height_f. rewrite !mirror_value by lia. auto.
  - rewrite (x0_f_value m g Hg), (x1_f_value m g Hg).
    unfold width_f. rewrite !wrap_value by lia. auto.
  - rewrite (y0_f_value m g Hg), (y1_f_value m g Hg).
    unfold height_f. rewrite !wrap_value by lia. auto.
Qed.

End IndexValues.

(* ================================================================= *)
(** ** Flat gather indices *)

Lemma mul64_small (a b : Z) :
  int64_min <= a * b <= int64_max -> mul64 a b = a * b.
Proof. apply wrap64_small. Qed.

Lemma add64_small (a b : Z) :
  int64_min <= a + b <= int64_max -> add64 a b = a + b.
Proof. apply wrap64_small. Qed.

Lemma le_prod3 (n h w : Z) :
  1 <= n -> 1 <= h -> 1 <= w ->
  h <= n * h * w /\ w <= n * h * w /\ h * w <= n * h * w.
Proof.
  intros Hn Hh Hw.
  assert (1 <= n * w) by (change 1 with (1 * 1); apply Z.mul_le_mono_nonneg; lia).
  assert (1 <= n * h) by (change 1 with (1 * 1); apply Z.mul_le_mono_nonneg; lia).
  repeat split.
  - replace (n * h * w) with (h * (n * w)) by ring.
    rewrite <- (Z.mul_1_r h) at 1. apply Z.mul_le_mono_nonneg_l; lia.
  - replace (n * h * w) with (w * (n * h)) by ring.
    rewrite <- (Z.mul_1_r w) at 1. apply Z.mul_le_mono_nonneg_l; lia.
  - replace (n * h * w) with (n * (h * w)) by ring.
    rewrite <- (Z.mul_1_l (h * w)) at 1. apply Z.mul_le_mono_nonneg_r; [|lia].
    apply Z.mul_nonneg_nonneg; lia.
Qed.

Lemma batch_of_location (n p m : Z) :
  0 <= m < n * p -> 0 <= p -> 0 <= m / p < n /\ 0 < p.
Proof.
  intros Hm Hp.
  assert (0 < p).
  { destruct (Z.eq_dec p 0) as [->|]; [rewrite Z.mul_0_r in Hm|]; lia. }
  split; [|assumption]. split.
  - apply Z.div_pos; lia.
  - apply Z.div_lt_upper_bound; [lia | rewrite Z.mul_comm; lia].
Qed.

(** The flat row number [b*(W*H) + r*W + c], computed in int64. *)
Lemma flat_index_value (n h w b r c : Z) :
  n * h * w <= int64_max ->
  0 <= b < n -> 0 <= r <= h - 1 -> 0 <= c <= w - 1 ->
  add64 (add64 (mul64 b (mul64 w h)) (mul64 r w)) c = b * (h * w) + r * w + c
  /\ 0 <= b * (h * w) + r * w + c <= n * h * w - 1.
Proof.
  intros Hs Hb Hr Hc.
  assert (Hmin : int64_min < 0) by (unfold int64_min; lia).
  assert (Hhw : 0 <= h * w) by nia.
  assert (B1 : b * (h * w) <= (n - 1) * (h * w))
    by (apply Z.mul_le_mono_nonneg_r; lia).
  assert (B2 : r * w <= (h - 1) * w)
    by (apply Z.mul_le_mono_nonneg_r; lia).
  assert (B3 : 0 <= b * (h * w)) by (apply Z.mul_nonneg_nonneg; lia).
  assert (B4 : 0 <= r * w) by (apply Z.mul_nonneg_nonneg; lia).
  assert (E1 : (n - 1) * (h * w) = n * h * w - h * w) by ring.
  assert (E2 : (h - 1) * w = h * w - w) by ring.
  assert (E3 : w * h = h * w) by ring.
  assert (B5 : h * w <= n * h * w).
  { replace (n * h * w) with (n * (h * w)) by ring.
    rewrite <- (Z.mul_1_l (h * w)) at 1. apply Z.mul_le_mono_nonneg_r; lia. }
  assert (R : 0 <= b * (h * w) + r * w + c <= n * h * w - 1) by lia.
  assert (0 <= w * h <= int64_max) by lia.
  assert (0 <= b * (w * h) <= int64_max) by (rewrite E3; lia).
  assert (0 <= r * w <= int64_max) by lia.
  assert (0 <= b * (w * h) + r * w <= int64_max) by (rewrite E3; lia).
  rewrite (mul64_small w h) by lia.
  rewrite (mul64_small b (w * h)) by lia.
  rewrite (mul64_small r w) by lia.
  rewrite (add64_small (b * (w * h)) (r * w)) by lia.
  rewrite add64_small by (rewrite E3; lia).
  split; [ring | exact R].
Qed.

Lemma base_value (num_batch height width out_height out_width m : Z) :
  data (base num_batch height width out_height out_width) m
  = mul64 (m / mul64 out_height out_width) (mul64 width height).
Proof. reflexivity. Qed.

(* ================================================================= *)
(** ** Multi-indices *)

Definition in_range (s idx : list Z) : Prop :=
  Forall2 (fun d i => 0 <= i < d) s idx.

Lemma ravel_range (s idx : list Z) :
  in_range s idx -> 0 <= ravel s idx < prod s.
Proof.
  induction 1 as [|d i s idx Hi _ IH]; cbn [ravel prod fold_right].
  - lia.
  - fold (prod s). nia.
Qed.

Lemma div_mod_unique (p a r : Z) :
  0 <= r < p -> (a * p + r) / p = a /\ (a * p + r) mod p = r.
Proof.
  intros Hr. split.
  - symmetry. apply (Z.div_unique_pos (a * p + r) p a r Hr). ring.
  - symmetry. apply (Z.mod_unique_pos (a * p + r) p a r Hr). ring.
Qed.

Lemma unravel_ravel (s idx : list Z) :
  in_range s idx -> unravel s (ravel s idx) = idx.
Proof.
  induction 1 as [|d i s idx Hi Hr IH]; cbn [ravel unravel].
  - reflexivity.
  - pose proof (ravel_range s idx Hr) as R.
    destruct (div_mod_unique (prod s) i (ravel s idx) R) as [-> ->].
    now rewrite IH.
Qed.

Lemma in_range_3 (a b c i j k : Z) :
  0 <= i < a -> 0 <= j < b -> 0 <= k < c -> in_range [a; b; c] [i; j; k].
Proof. unfold in_range. auto using Forall2_cons, Forall2_nil. Qed.

Lemma in_range_4 (a b c d i j k l : Z) :
  0 <= i < a -> 0 <= j < b -> 0 <= k < c -> 0 <= l < d ->
  in_range [a; b; c; d] [i; j; k; l].
Proof. unfold in_range. auto 6 using Forall2_cons, Forall2_nil. Qed.

(** Reading a transposed tensor. *)
Lemma get_dimshuffle_102 {A : Type} (t : ndarray A) (a b c i j k : Z) :
  shape t = [a; b; c] ->
  0 <= i < b -> 0 <= j < a -> 0 <= k < c ->
  get (dimshuffle_ [Some 1; Some 0; Some 2]%nat t) [i; j; k] = get t [j; i; k].
Proof.
  intros Hs Hi Hj Hk. unfold get at 1, dimshuffle_, ndim. rewrite Hs.
  cbn [shape data dimshuffle_shape map nth List.length seq].
  rewrite unravel_ravel by (apply in_range_3; assumption).
  reflexivity.
Qed.

Lemma get_dimshuffle_0231 {A : Type} (t : ndarray A) (a b c d i j k l : Z) :
  shape t = [a; b; c; d] ->
  0 <= i < a -> 0 <= j < c -> 0 <= k < d -> 0 <= l < b ->
  get (dimshuffle_ [Some 0; Some 2; Some 3; Some 1]%nat t) [i; j; k; l]
  = get t [i; l; j; k].
Proof.
  intros Hs Hi Hj Hk Hl. unfold get at 1, dimshuffle_, ndim. rewrite Hs.
  cbn [shape data dimshuffle_shape map nth List.length seq].
  rewrite unravel_ravel by (apply in_range_4; assumption).
  reflexivity.
Qed.

Lemma get_dimshuffle_0312 {A : Type} (t : ndarray A) (a b c d i j k l : Z) :
  shape t = [a; b; c; d] ->
  0 <= i < a -> 0 <= j < d -> 0 <= k < b -> 0 <= l < c ->
  get (dimshuffle_ [Some 0; Some 3; Some 1; Some 2]%nat t) [i; j; k; l]
  = get t [i; k; l; j].
Proof.
  intros Hs Hi Hj Hk Hl. unfold get at 1, dimshuffle_, ndim. rewrite Hs.
  cbn [shape data dimshuffle_shape map nth List.length seq].
  rewrite unravel_ravel by (apply in_range_4; assumption).
  reflexivity.
Qed.

(* ================================================================= *)
(** ** The generated grid *)

(** Entry [j] of the [n]-sample linspace over [-1, 1]. *)
Definition lin (n j : Z) : floatX := data (_linspace (of_int (-1)) (of_int 1) n) j.

Lemma shape_eqb_refl s : shape_eqb s s = true.
Proof. induction s; cbn; [reflexivity|]. now rewrite Z.eqb_refl. Qed.

Lemma shape_eqb_eq s s' : shape_eqb s s' = true -> s = s'.
Proof.
  revert s'. induction s as [|d s IH]; intros [|d' s']; cbn; try discriminate; auto.
  intros H. apply andb_prop in H. destruct H as [H1 H2].
  apply Z.eqb_eq in H1. f_equal; auto.
Qed.

Lemma ones_ok (s : list Z) :
  Forall (fun d => 0 <= d) s -> ones s = Ok (mk_array s (fun _ => of_int 1)).
Proof.
  intros H. unfold ones, all_nonneg.
  replace (forallb (fun d => 0 <=? d) s) with true; [reflexivity|].
  symmetry. apply forallb_forall. rewrite Forall_forall in H.
  intros d Hd. apply Z.leb_le. auto.
Qed.

Lemma dot_ok (a b : ndarray floatX) (k p : Z) (lead : list Z) :
  rev (shape a) = k :: lead -> shape b = [k; p] ->
  dot a b = Ok (mk_array (rev lead ++ [p])
                 (fun o => fsumZ k (fun i => fmul (data a (o / p * k + i))
                                                 (data b (i * p + o mod p))))).
Proof. intros Ha Hb. unfold dot. rewrite Ha, Hb, Z.eqb_refl. reflexivity. Qed.

Lemma fsumZ_1 f : fsumZ 1 f = fadd (of_int 0) (f 0).
Proof. reflexivity. Qed.

Lemma fsumZ_3 f : fsumZ 3 f = fadd (fadd (fadd (of_int 0) (f 0)) (f 1)) (f 2).
Proof. reflexivity. Qed.

Lemma data_dimshuffle_row {A : Type} (t : ndarray A) (n k : Z) :
  shape t = [n] ->
  data (dimshuffle_ [None; Some 0%nat] t) k = data t (k mod n).
Proof.
  intros Hs. unfold dimshuffle_, get, ndim. rewrite Hs.
  cbn [data shape dimshuffle_shape map nth List.length seq unravel ravel
       axis_position Nat.eqb prod fold_right].
  rewrite ?Z.mul_1_r, ?Z.div_1_r, ?Z.add_0_r. reflexivity.
Qed.

Lemma data_dimshuffle_col {A : Type} (t : ndarray A) (n k : Z) :
  shape t = [n] ->
  data (dimshuffle_ [Some 0%nat; None] t) k = data t k.
Proof.
  intros Hs. unfold dimshuffle_, get, ndim. rewrite Hs.
  cbn [data shape dimshuffle_shape map nth List.length seq unravel ravel
       axis_position Nat.eqb prod fold_right].
  rewrite ?Z.mul_1_r, ?Z.div_1_r, ?Z.add_0_r. reflexivity.
Qed.

Lemma concat_data_3 {A : Type} (t u v : ndarray A) (n p : Z) :
  size t = n -> size u = n -> 0 <= p < n ->
  concat_data t [u; v] p = data t p /\
  concat_data t [u; v] (n + p) = data u p /\
  concat_data t [u; v] (2 * n + p) = data v p.
Proof.
  intros Ht Hu Hp. cbn [concat_data]. rewrite Ht, Hu.
  replace (p <? n) with true by (symmetry; apply Z.ltb_lt; lia).
  replace (n + p <? n) with false by (symmetry; apply Z.ltb_ge; lia).
  replace (2 * n + p <? n) with false by (symmetry; apply Z.ltb_ge; lia).
  replace (n + p - n) with p by ring.
  replace (2 * n + p - n) with (n + p) by ring.
  replace (p <? n) with true by (symmetry; apply Z.ltb_lt; lia).
  replace (n + p <? n) with false by (symmetry; apply Z.ltb_ge; lia).
  replace (n + p - n) with p by ring.
  auto.
Qed.

Lemma meshgrid_value (oH oW : Z) :
  0 <= oH -> 0 <= oW ->
  exists mesh, _meshgrid oH oW = Ok mesh /\ shape mesh = [3; oH * oW] /\
    forall p, 0 <= p < oH * oW ->
      get mesh [0; p] = fadd (of_int 0) (fmul (of_int 1) (lin oW (p mod oW))) /\
      get mesh [1; p] = fadd (of_int 0) (fmul (lin oH (p / oW)) (of_int 1)) /\
      get mesh [2; p] = of_int 1.
Proof.
  intros HH HW. unfold _meshgrid.
  rewrite ones_ok by (repeat constructor; lia). cbn [bind].
  unfold dimshuffle at 1. unfold ndim, _linspace, arange.
  cbn [shape emap List.length valid_pattern pattern_axes flat_map app Nat.eqb
       seq forallb existsb andb orb bind].
  rewrite !Z.max_r by lia.
  erewrite dot_ok; [|reflexivity|reflexivity]. cbn [bind].
  unfold dimshuffle, ndim.
  cbn [shape emap List.length valid_pattern pattern_axes flat_map app Nat.eqb
       seq forallb existsb andb orb bind].
  rewrite ones_ok by (repeat constructor; lia). cbn [bind].
  erewrite dot_ok; [|reflexivity|reflexivity]. cbn [bind].
  unfold concatenate, reshape_row, size.
  cbn [shape rev app forallb hd fold_left emap dimshuffle_ dimshuffle_shape map nth
       prod fold_right].
  rewrite !shape_eqb_refl. cbn [andb].
  eexists. split; [reflexivity|]. cbn [shape].
  split; [f_equal; f_equal; ring|].
  intros p Hp. unfold get. cbn [shape data ravel prod fold_right].
  match goal with |- context [concat_data ?t [?u; ?v]] =>
    destruct (concat_data_3 t u v (oH * oW) p) as (E0 & E1 & E2);
      [unfold size; cbn [shape prod fold_right]; ring
      |unfold size; cbn [shape prod fold_right]; ring
      |exact Hp|]
  end.
  replace (0 * (oH * (oW * 1) * 1) + (p * 1 + 0)) with p by ring.
  replace (1 * (oH * (oW * 1) * 1) + (p * 1 + 0)) with (oH * oW + p) by ring.
  replace (2 * (oH * (oW * 1) * 1) + (p * 1 + 0)) with (2 * (oH * oW) + p) by ring.
  rewrite E0, E1, E2. cbn [data emap]. rewrite !fsumZ_1.
  rewrite (data_dimshuffle_row _ oW) by reflexivity.
  rewrite (data_dimshuffle_col _ oH) by reflexivity.
  cbn [data emap]. unfold lin, _linspace, arange. cbn [data emap].
  rewrite Z.mul_0_l, Z.add_0_l, Zmod_mod, Z.mul_1_r, Z.add_0_r.
  repeat split; reflexivity.
Qed.

Lemma all_nonneg_4 a b c d :
  0 <= a -> 0 <= b -> 0 <= c -> 0 <= d -> all_nonneg [a; b; c; d] = true.
Proof.
  intros. unfold all_nonneg. cbn [forallb].
  repeat (apply andb_true_intro; split); try reflexivity; apply Z.leb_le; assumption.
Qed.

Lemma grid_value (theta mesh : ndarray floatX) (N c oH oW : Z) :
  shape theta = [N; 2; 3] -> 0 <= N -> 0 <= oH -> 0 <= oW ->
  _meshgrid oH oW = Ok mesh -> shape mesh = [3; oH * oW] ->
  exists grid,
    transformer_grid_impl theta (N, c, oH, oW) = Ok grid /\
    shape grid = [2; N; oH; oW] /\
    forall r b p, 0 <= r < 2 -> 0 <= b < N -> 0 <= p < oH * oW ->
      data grid ((r * N + b) * (oH * oW) + p)
      = fsumZ 3 (fun i => fmul (data theta ((b * 2 + r) * 3 + i))
                               (data mesh (i * (oH * oW) + p))).
Proof.
  intros Hs HN HH HW Hm Hms. unfold transformer_grid_impl. rewrite Hm. cbn [bind].
  erewrite dot_ok; [|rewrite Hs; reflexivity| exact Hms]. cbn [bind rev app].
  unfold dimshuffle, ndim.
  cbn [shape List.length valid_pattern pattern_axes flat_map app Nat.eqb
       seq forallb existsb andb orb bind].
  unfold reshape, size.
  cbn [shape dimshuffle_ dimshuffle_shape map nth prod fold_right].
  rewrite all_nonneg_4 by lia.
  replace (2 * (N * (oH * (oW * 1))) =? 2 * (N * (oH * oW * 1))) with true
    by (symmetry; apply Z.eqb_eq; ring).
  cbn [andb]. eexists. split; [reflexivity|]. split; [reflexivity|].
  intros r b p Hr Hb Hp. cbn [data].
  set (P := oH * oW) in *.
  replace ((r * N + b) * P + p) with (ravel [2; N; P] [r; b; p])
    by (cbn [ravel prod fold_right]; ring).
  match goal with |- data ?t _ = _ => change (get t [r; b; p] = fsumZ 3 (fun i => fmul (data theta ((b * 2 + r) * 3 + i)) (data mesh (i * P + p)))) end.
  rewrite (get_dimshuffle_102 _ N 2 P) by (reflexivity || assumption).
  unfold get. cbn [shape data ravel prod fold_right].
  replace (b * (2 * (P * 1)) + (r * (P * 1) + (p * 1 + 0))) with ((b * 2 + r) * P + p) by ring.
  destruct (div_mod_unique P (b * 2 + r) p Hp) as [-> ->].
  reflexivity.
Qed.

(* ================================================================= *)
(** ** Degenerate output shapes *)

Lemma linspace_one_sample (start stop : floatX) :
  data (_linspace start stop 1) 0 = NaN.
Proof.
  unfold _linspace, arange. cbn [data emap].
  replace (fsub (of_int 1) (of_int 1)) with (of_int 0)
    by (apply feqb_eq; vm_compute; reflexivity).
  assert (Hz : fmul (of_int 0) (fdiv (fsub stop start) (of_int 0)) = NaN).
  { destruct (fsub stop start) as [d| |]; cbn; try reflexivity.
    destruct (Qc_is_zero d); reflexivity. }
  rewrite Hz. reflexivity.
Qed.

Lemma fmul_nan_r (a : floatX) : fmul a NaN = NaN.
Proof. destruct a; reflexivity. Qed.

Lemma fmul_nan_l (a : floatX) : fmul NaN a = NaN.
Proof. reflexivity. Qed.

Lemma fadd_nan_r (a : floatX) : fadd a NaN = NaN.
Proof. destruct a; reflexivity. Qed.

Lemma fadd_nan_l (a : floatX) : fadd NaN a = NaN.
Proof. reflexivity. Qed.

(** C9. With a single sample on an axis the linspace step is a division
    by zero, and nothing guards it: the one sample is NaN, the grid
    generator still returns a grid, and every entry of that grid is NaN,
    whatever theta holds. *)
Theorem single_sample_axis_gives_nan :
  forall (theta : ndarray floatX) (N c oH oW : Z),
    shape theta = [N; 2; 3] -> 0 <= N -> 0 <= oH -> 0 <= oW ->
    oH = 1 \/ oW = 1 ->
    lin 1 0 = NaN /\
    exists grid,
      transformer_grid_impl theta (N, c, oH, oW) = Ok grid /\
      shape grid = [2; N; oH; oW] /\
      forall r b p, 0 <= r < 2 -> 0 <= b < N -> 0 <= p < oH * oW ->
        data grid ((r * N + b) * (oH * oW) + p) = NaN.
Proof.
  intros theta N c oH oW Hs HN HH HW Hone.
  split; [apply linspace_one_sample|].
  destruct (meshgrid_value oH oW HH HW) as (mesh & Em & Sm & Vm).
  destruct (grid_value theta mesh N c oH oW Hs HN HH HW Em Sm) as (grid & Eg & Sg & Vg).
  exists grid. split; [exact Eg|]. split; [exact Sg|].
  intros r b p Hr Hb Hp. rewrite (Vg r b p Hr Hb Hp), fsumZ_3.
  destruct (Vm p Hp) as (M0 & M1 & _).
  unfold get in M0, M1. rewrite Sm in M0, M1.
  cbn [ravel prod fold_right] in M0, M1.
  replace (0 * (oH * oW * 1) + (p * 1 + 0)) with (0 * (oH * oW) + p) in M0 by ring.
  replace (1 * (oH * oW * 1) + (p * 1 + 0)) with (1 * (oH * oW) + p) in M1 by ring.
  rewrite M0, M1.
  destruct Hone as [-> | ->].
  - replace (p / oW) with 0 by (symmetry; apply Z.div_small; lia).
    unfold lin at 2. rewrite linspace_one_sample.
    repeat first [rewrite fmul_nan_r | rewrite fadd_nan_r
                 | rewrite fmul_nan_l | rewrite fadd_nan_l].
    reflexivity.
  - rewrite Z.mod_1_r. unfold lin at 1. rewrite linspace_one_sample.
    repeat first [rewrite fmul_nan_r | rewrite fadd_nan_r
                 | rewrite fmul_nan_l | rewrite fadd_nan_l].
    reflexivity.
Qed.

Definition theta_identity_1 : ndarray floatX := of_ints [1; 2; 3] [1; 0; 0; 0; 1; 0].

Lemma single_sample_axis_gives_nan_witness :
  exists grid,
    transformer_grid_impl theta_identity_1 (1, 1, 2, 1) = Ok grid /\
    shape grid = [2; 1; 2; 1] /\
    forall r b p, 0 <= r < 2 -> 0 <= b < 1 -> 0 <= p < 2 * 1 ->
      data grid ((r * 1 + b) * (2 * 1) + p) = NaN.
Proof.
  apply (single_sample_axis_gives_nan theta_identity_1 1 1 2 1);
    solve [reflexivity | lia | right; reflexivity].
Defined.

(* ================================================================= *)
(** ** The entry point *)

Lemma feqb_refl (a : floatX) : feqb a a = true.
Proof.
  destruct a as [q|s|]; cbn; [|apply Bool.eqb_reflx|reflexivity].
  unfold Qc_eq_bool. destruct (Qc_eq_dec q q); congruence.
Qed.

Lemma feqb_neq (a b : floatX) : feqb a b = false -> a <> b.
Proof. intros H E. subst. rewrite feqb_refl in H. discriminate. Qed.

Lemma sampler_mode_cases (inp grid : ndarray floatX) (border_mode : string) :
  border_mode = "nearest"%string \/ border_mode = "mirror"%string \/
  border_mode = "wrap"%string \/
  (border_mode <> "nearest"%string /\ border_mode <> "mirror"%string /\
   border_mode <> "wrap"%string).
Proof.
  destruct (String.eqb_spec border_mode "nearest"); [tauto|].
  destruct (String.eqb_spec border_mode "mirror"); [tauto|].
  destruct (String.eqb_spec border_mode "wrap"); tauto.
Qed.

(** A 2x2 image and an affine map that shifts the grid by one to the
    right: the border modes disagree on the second output pixel. *)
Definition image_2x2 : ndarray floatX := of_ints [1; 1; 2; 2] [1; 2; 3; 4].
Definition theta_shift_1 : ndarray floatX := of_ints [1; 2; 3] [1; 0; 1; 0; 1; 0].

Definition grid_shift_1 : ndarray floatX :=
  match transformer_grid_impl theta_shift_1 (1, 1, 2, 2) with
  | Ok g => g
  | Raise _ => theta_shift_1
  end.

Lemma grid_shift_1_ok :
  transformer_grid_impl theta_shift_1 (1, 1, 2, 2) = Ok grid_shift_1.
Proof. reflexivity. Qed.

Lemma spatialtf_impl_shift (default_mode border_mode : string) :
  spatialtf_impl default_mode image_2x2 theta_shift_1 (of_int 1) (of_int 1) border_mode
  = transformer_sampler_impl image_2x2 grid_shift_1 default_mode.
Proof. reflexivity. Qed.

Lemma shift_nearest :
  data_of (transformer_sampler_impl image_2x2 grid_shift_1 "nearest") 1 = of_int 2.
Proof. apply feqb_eq. vm_compute. reflexivity. Qed.

Lemma shift_wrap :
  data_of (transformer_sampler_impl image_2x2 grid_shift_1 "wrap") 1
  = Fin (Q2Qc (3 # 2)).
Proof. apply feqb_eq. vm_compute. reflexivity. Qed.

Lemma shift_mirror :
  data_of (transformer_sampler_impl image_2x2 grid_shift_1 "mirror") 1
  = Fin (Q2Qc (3 # 2)).
Proof. apply feqb_eq. vm_compute. reflexivity. Qed.

(** C1. [spatialtf] does not pass its [border_mode] argument on: the
    sampler operator is built with no argument, so the result is the same
    for every border mode the caller supplies.  Whatever mode the operator
    defaults to, there is a mode the caller can ask for ('wrap' when the
    default is 'nearest', 'nearest' otherwise) for which the result is not
    the bilinear sampling of the generated grid under the requested mode:
    on the 2x2 image and the shifted grid the second output pixel differs. *)
Theorem spatialtf_drops_border_mode :
  (forall G S inp theta scale_height scale_width border_mode border_mode',
      spatialtf G S inp theta scale_height scale_width border_mode
      = spatialtf G S inp theta scale_height scale_width border_mode') /\
  (forall default_mode : string,
      exists border_mode : string,
        In border_mode ["nearest"; "wrap"]%string /\
        data_of (spatialtf_impl default_mode image_2x2 theta_shift_1
                                (of_int 1) (of_int 1) border_mode) 1
        <> data_of (grid <- transformer_grid_impl theta_shift_1 (1, 1, 2, 2) ;;
                    transformer_sampler_impl image_2x2 grid border_mode) 1).
Proof.
  split; [reflexivity|].
  intros default_mode.
  destruct (sampler_mode_cases image_2x2 grid_shift_1 default_mode)
    as [-> | [-> | [-> | (Hn & Hm & Hw)]]].
  - exists "wrap"%string. split; [cbn; tauto|].
    rewrite spatialtf_impl_shift, grid_shift_1_ok. cbn [bind].
    rewrite shift_nearest, shift_wrap. apply feqb_neq. vm_compute. reflexivity.
  - exists "nearest"%string. split; [cbn; tauto|].
    rewrite spatialtf_impl_shift, grid_shift_1_ok. cbn [bind].
    rewrite shift_nearest, shift_mirror. apply feqb_neq. vm_compute. reflexivity.
  - exists "nearest"%string. split; [cbn; tauto|].
    rewrite spatialtf_impl_shift, grid_shift_1_ok. cbn [bind].
    rewrite shift_nearest, shift_wrap. apply feqb_neq. vm_compute. reflexivity.
  - exists "nearest"%string. split; [cbn; tauto|].
    rewrite spatialtf_impl_shift, grid_shift_1_ok. cbn [bind].
    rewrite (sampler_rejects_unknown_mode image_2x2 grid_shift_1 default_mode
               1 1 2 2 2 1 2 2 []);
      try solve [reflexivity | lia | assumption].
    rewrite shift_nearest. cbn [data_of]. discriminate.
Qed.

Definition reshape_error : exn :=
  ValueError "total size of new array must be unchanged".

(** A theta with another batch size than the output makes the final
    reshape of the grid generator fail, as soon as the output has a pixel. *)
Lemma grid_batch_mismatch (theta : ndarray floatX) (Nt N c oH oW : Z) :
  shape theta = [Nt; 2; 3] -> Nt <> N -> 0 < oH -> 0 < oW ->
  transformer_grid_impl theta (N, c, oH, oW) = Raise reshape_error.
Proof.
  intros Hs Hne HH HW.
  destruct (meshgrid_value oH oW) as (mesh & Em & Sm & _); try lia.
  unfold transformer_grid_impl. rewrite Em. cbn [bind].
  erewrite dot_ok; [|rewrite Hs; reflexivity| exact Sm]. cbn [bind rev app].
  unfold dimshuffle, ndim.
  cbn [shape List.length valid_pattern pattern_axes flat_map app Nat.eqb
       seq forallb existsb andb orb bind].
  unfold reshape, size.
  cbn [shape dimshuffle_ dimshuffle_shape map nth prod fold_right].
  replace (2 * (N * (oH * (oW * 1))) =? 2 * (Nt * (oH * oW * 1))) with false.
  - rewrite andb_false_r. reflexivity.
  - symmetry. apply Z.eqb_neq. intros E.
    assert (0 < oH * oW) by (apply Z.mul_pos_pos; lia).
    assert (E' : N * (oH * oW) = Nt * (oH * oW)) by (rewrite !Z.mul_1_r in E; lia).
    apply Z.mul_reg_r in E'; lia.
Qed.

Lemma spatialtf_rank_check G S (inp theta : ndarray floatX)
    (scale_height scale_width : floatX) (border_mode : string) :
  ndim inp <> 4%nat \/ ndim theta <> 3%nat ->
  spatialtf G S inp theta scale_height scale_width border_mode = Raise AssertionError.
Proof.
  intros H. unfold spatialtf, assert.
  destruct (Nat.eqb_spec (ndim inp) 4) as [Ei|Ei]; [|reflexivity].
  destruct (Nat.eqb_spec (ndim theta) 3) as [Et|Et]; [|reflexivity].
  tauto.
Qed.

(** C7, as the code has it.  An input that is not 4-D, or a theta that is
    not 3-D, fails the assertions of [spatialtf] before either operator is
    applied, so no result is produced.  [spatialtf] does not compare the
    batch sizes of input and theta; with the implementations of this file
    a theta of shape (N', 2, 3) with N' different from the input's batch
    size is rejected by the grid generator's reshape, provided the output
    has at least one pixel. *)
Theorem spatialtf_rejects_bad_ranks :
  forall (default_mode border_mode : string) (inp theta : ndarray floatX)
         (scale_height scale_width : floatX),
    (ndim inp <> 4%nat \/ ndim theta <> 3%nat ->
     forall G S,
       spatialtf G S inp theta scale_height scale_width border_mode
       = Raise AssertionError) /\
    (forall N C H W Nt,
        shape inp = [N; C; H; W] -> shape theta = [Nt; 2; 3] -> Nt <> N ->
        0 < to_int64 (fmul scale_height (of_int H)) ->
        0 < to_int64 (fmul scale_width (of_int W)) ->
        spatialtf_impl default_mode inp theta scale_height scale_width border_mode
        = Raise reshape_error).
Proof.
  intros default_mode border_mode inp theta scale_height scale_width. split.
  - intros H G S. now apply spatialtf_rank_check.
  - intros N C H W Nt Hi Ht Hne Hoh How.
    unfold spatialtf_impl, spatialtf, assert, ndim. rewrite Hi, Ht.
    cbn [List.length Nat.eqb bind].
    rewrite (grid_batch_mismatch theta Nt N C _ _ Ht Hne Hoh How).
    reflexivity.
Qed.

Definition images_2 : ndarray floatX := of_ints [2; 1; 2; 2] [1; 2; 3; 4; 5; 6; 7; 8].
Definition thetas_3 : ndarray floatX :=
  of_ints [3; 2; 3] [1; 0; 0; 0; 1; 0; 1; 0; 0; 0; 1; 0; 1; 0; 0; 0; 1; 0].
Definition theta_1x4x3 : ndarray floatX :=
  of_ints [1; 4; 3] [1; 0; 0; 0; 1; 0; 1; 0; 0; 0; 1; 0].
Definition image_3d : ndarray floatX := of_ints [1; 2; 2] [1; 2; 3; 4].

Lemma spatialtf_rejects_bad_ranks_witness :
  spatialtf_impl "nearest" image_3d thetas_3 (of_int 1) (of_int 1) "nearest"
  = Raise AssertionError
  /\ spatialtf_impl "nearest" images_2 thetas_3 (of_int 1) (of_int 1) "nearest"
     = Raise reshape_error.
Proof.
  split.
  - apply (spatialtf_rejects_bad_ranks "nearest" "nearest" image_3d thetas_3
             (of_int 1) (of_int 1)).
    left. cbn. discriminate.
  - apply (proj2 (spatialtf_rejects_bad_ranks "nearest" "nearest" images_2 thetas_3
                    (of_int 1) (of_int 1)) 2 1 2 2 3);
      solve [reflexivity | discriminate | vm_compute; reflexivity].
Defined.

Definition result_shape {A : Type} (r : result (ndarray A)) : option (list Z) :=
  match r with
  | Ok t => Some (shape t)
  | Raise _ => None
  end.

Lemma result_shape_ok {A : Type} (r : result (ndarray A)) (s : list Z) :
  result_shape r = Some s -> exists out, r = Ok out /\ shape out = s.
Proof.
  destruct r as [t|e]; cbn; [|discriminate].
  intros H. exists t. split; congruence.
Qed.

(** Two calls whose batch sizes disagree and that return a result: a batch
    of two images with three affine maps and an output scaled down to no
    row at all, and a batch of two images with one 4x3 "theta". *)
Lemma batch_mismatch_not_rejected :
  (hd 0 (shape images_2) = 2 /\ hd 0 (shape thetas_3) = 3 /\
   exists out,
     spatialtf_impl "nearest" images_2 thetas_3 (Fin (Q2Qc (1 # 4))) (of_int 1) "nearest"
     = Ok out /\ shape out = [2; 1; 0; 2]) /\
  (hd 0 (shape images_2) = 2 /\ hd 0 (shape theta_1x4x3) = 1 /\
   exists out,
     spatialtf_impl "nearest" images_2 theta_1x4x3 (of_int 1) (of_int 1) "nearest"
     = Ok out /\ shape out = [2; 1; 2; 2]).
Proof.
  split; (split; [reflexivity|]); (split; [reflexivity|]);
    apply result_shape_ok; vm_compute; reflexivity.
Qed.

(* ================================================================= *)
(** ** The gather and the interpolation *)

Lemma forallb_seq (f : Z -> bool) (n : Z) :
  (forall m, 0 <= m < n -> f m = true) ->
  forallb (fun k => f (Z.of_nat k)) (seq 0 (Z.to_nat n)) = true.
Proof.
  intros H. apply forallb_forall. intros k Hk. apply in_seq in Hk.
  apply H. lia.
Qed.

Definition interpolate (a b c d Ia Ib Ic Id : floatX) : floatX :=
  fadd (fadd (fadd (fadd (of_int 0) (fmul a Ia)) (fmul b Ib)) (fmul c Ic)) (fmul d Id).

Lemma data_mk {A : Type} (s : list Z) (f : Z -> A) (k : Z) :
  data (mk_array s f) k = f k.
Proof. reflexivity. Qed.

Lemma take_rows_ok {A : Type} (t : ndarray A) (idx : ndarray Z) (rows c : Z) :
  shape t = [rows; c] ->
  (forall m, 0 <= m < size idx -> 0 <= data idx m < rows) ->
  take_rows t idx
  = Ok (mk_array [size idx; c]
          (fun k => data t (data idx (k / c) mod rows * c + k mod c))).
Proof.
  intros Hs Hr. unfold take_rows. rewrite Hs.
  rewrite (forallb_seq (fun m => row_in_range rows (data idx m))); [reflexivity|].
  intros m Hm. specialize (Hr m Hm). unfold row_in_range.
  apply andb_true_intro. split; [apply Z.leb_le | apply Z.ltb_lt]; lia.
Qed.

Section GatherValue.

Variables inp grid_x grid_y : ndarray floatX.
Variables N C H W oH oW : Z.
Variables x0 x1 y0 y1 : ndarray Z.

Hypothesis inp_shape : shape inp = [N; C; H; W].
Hypothesis N_ge : 0 <= N.
Hypothesis C_ge : 1 <= C.
Hypothesis H_ge : 1 <= H.
Hypothesis W_ge : 1 <= W.
Hypothesis oH_ge : 0 <= oH.
Hypothesis oW_ge : 0 <= oW.
Hypothesis inp_fits : N * H * W <= int64_max.
Hypothesis out_fits : N * oH * oW <= int64_max.
Hypothesis y0_size : size y0 = N * (oH * oW).
Hypothesis x0_range : forall m, 0 <= m < N * (oH * oW) -> 0 <= data x0 m <= W - 1.
Hypothesis x1_range : forall m, 0 <= m < N * (oH * oW) -> 0 <= data x1 m <= W - 1.
Hypothesis y0_range : forall m, 0 <= m < N * (oH * oW) -> 0 <= data y0 m <= H - 1.
Hypothesis y1_range : forall m, 0 <= m < N * (oH * oW) -> 0 <= data y1 m <= H - 1.

Let P := oH * oW.

Lemma base_size : size (base N H W oH oW) = N * P.
Proof.
  unfold base, repeat_each, size, arange. cbn [shape emap prod fold_right].
  rewrite Z.max_r by lia. rewrite !Z.mul_1_r.
  destruct (Z.eq_dec N 0) as [->|Hn]; [ring|].
  assert (0 <= P <= int64_max).
  { unfold P. split; [apply Z.mul_nonneg_nonneg; lia|].
    replace (N * oH * oW) with (N * (oH * oW)) in out_fits by ring.
    assert (1 * (oH * oW) <= N * (oH * oW))
      by (apply Z.mul_le_mono_nonneg_r; [apply Z.mul_nonneg_nonneg|]; lia).
    lia. }
  rewrite mul64_small by (unfold int64_min, P in *; lia).
  fold P. rewrite Z.max_r by lia. reflexivity.
Qed.

Lemma mul64_out : 1 <= N -> mul64 oH oW = P.
Proof.
  intros Hn. apply mul64_small.
  assert (0 <= P) by (unfold P; apply Z.mul_nonneg_nonneg; lia).
  replace (N * oH * oW) with (N * (oH * oW)) in out_fits by ring.
  assert (1 * (oH * oW) <= N * (oH * oW))
    by (apply Z.mul_le_mono_nonneg_r; [apply Z.mul_nonneg_nonneg|]; lia).
  unfold int64_min, P in *. lia.
Qed.

(** The flat row numbers of the four corners. *)
Lemma idx_value (xs ys : ndarray Z) (m : Z) :
  0 <= m < N * P ->
  0 <= data xs m <= W - 1 -> 0 <= data ys m <= H - 1 ->
  data (emap2 add64 (emap2 add64 (base N H W oH oW) (emap (fun v => mul64 v W) ys)) xs) m
  = m / P * (H * W) + data ys m * W + data xs m
  /\ 0 <= m / P * (H * W) + data ys m * W + data xs m <= N * H * W - 1.
Proof.
  intros Hm Hx Hy.
  destruct (batch_of_location N P m Hm) as [Hb Hp];
    [unfold P; apply Z.mul_nonneg_nonneg; lia|].
  cbn [data emap2 emap]. rewrite base_value, mul64_out by lia.
  apply flat_index_value; assumption.
Qed.

Lemma idx_size (xs ys : ndarray Z) :
  size (emap2 add64 (emap2 add64 (base N H W oH oW) (emap (fun v => mul64 v W) ys)) xs)
  = N * P.
Proof. unfold size at 1. cbn [shape emap2]. apply base_size. Qed.

Lemma inp_flat_ok :
  reshape_rows (inp_transposed inp) C
  = Ok (mk_array [N * H * W; C] (data (inp_transposed inp))).
Proof.
  unfold reshape_rows, size, inp_transposed.
  cbn [shape dimshuffle_ dimshuffle_shape map]. rewrite inp_shape.
  cbn [nth prod fold_right].
  replace (N * (H * (W * (C * 1)))) with (N * H * W * C) by ring.
  rewrite Z.mod_mul, Z.div_mul by lia.
  replace (C =? 0) with false by (symmetry; apply Z.eqb_neq; lia).
  reflexivity.
Qed.

Lemma corner_rows_ok (t : ndarray floatX) (xs ys : ndarray Z) :
  shape t = [N * H * W; C] ->
  (forall m, 0 <= m < N * P -> 0 <= data xs m <= W - 1) ->
  (forall m, 0 <= m < N * P -> 0 <= data ys m <= H - 1) ->
  take_rows t
            (emap2 add64 (emap2 add64 (base N H W oH oW) (emap (fun v => mul64 v W) ys)) xs)
  = Ok (mk_array [N * P; C]
          (fun k =>
             data t
                  (data (emap2 add64 (emap2 add64 (base N H W oH oW)
                                                   (emap (fun v => mul64 v W) ys)) xs)
                        (k / C) mod (N * H * W) * C + k mod C))).
Proof.
  intros Ht Hx Hy.
  rewrite (take_rows_ok t _ (N * H * W) C Ht).
  - rewrite idx_size. reflexivity.
  - intros m Hm. rewrite idx_size in Hm.
    destruct (idx_value xs ys m Hm (Hx m Hm) (Hy m Hm)) as [-> R]. lia.
Qed.

Lemma pixel_lookup (b c r q : Z) :
  0 <= b < N -> 0 <= c < C -> 0 <= r <= H - 1 -> 0 <= q <= W - 1 ->
  data (inp_transposed inp) ((b * (H * W) + r * W + q) * C + c)
  = get inp [b; c; r; q].
Proof.
  intros Hb Hc Hr Hq.
  rewrite <- (get_dimshuffle_0231 inp N C H W b r q c inp_shape) by lia.
  unfold get, inp_transposed. cbn [shape dimshuffle_ dimshuffle_shape map].
  rewrite inp_shape. cbn [nth ravel prod fold_right].
  apply (f_equal (data _)). ring.
Qed.

Lemma corner_lookup (xs ys : ndarray Z) (b c i j : Z) :
  0 <= b < N -> 0 <= c < C -> 0 <= i < oH -> 0 <= j < oW ->
  (forall m, 0 <= m < N * P -> 0 <= data xs m <= W - 1) ->
  (forall m, 0 <= m < N * P -> 0 <= data ys m <= H - 1) ->
  let m := (b * oH + i) * oW + j in
  data (inp_transposed inp)
       (data (emap2 add64 (emap2 add64 (base N H W oH oW)
                                        (emap (fun v => mul64 v W) ys)) xs) m
        mod (N * H * W) * C + c)
  = get inp [b; c; data ys m; data xs m].
Proof.
  intros Hb Hc Hi Hj Hx Hy m.
  assert (Hq : 0 <= i * oW + j < P) by (unfold P; nia).
  assert (Em : m = b * P + (i * oW + j)) by (unfold m, P; ring).
  assert (Hm : 0 <= m < N * P) by nia.
  destruct (idx_value xs ys m Hm (Hx m Hm) (Hy m Hm)) as [-> R].
  rewrite Z.mod_small by lia.
  replace (m / P) with b
    by (rewrite Em; symmetry; apply (div_mod_unique P b (i * oW + j) Hq)).
  apply pixel_lookup; auto.
Qed.

Definition gathered (t : ndarray floatX) (xs ys : ndarray Z) : ndarray floatX :=
  mk_array [N * P; C]
    (fun k =>
       data t
            (data (emap2 add64 (emap2 add64 (base N H W oH oW)
                                             (emap (fun v => mul64 v W) ys)) xs)
                  (k / C) mod (N * H * W) * C + k mod C)).

Definition inp_flat_ : ndarray floatX :=
  mk_array [N * H * W; C] (data (inp_transposed inp)).

Lemma gather_ok :
  gather_and_interpolate inp N C H W oH oW grid_x grid_y x0 x1 y0 y1
  = Ok (dimshuffle_ [Some 0; Some 3; Some 1; Some 2]%nat
          (mk_array [N; oH; oW; C]
             (data (sum_axis0 (mul_col (wa H W grid_x grid_y) (gathered inp_flat_ x0 y0))
                              [mul_col (wb H W grid_x grid_y) (gathered inp_flat_ x0 y1);
                               mul_col (wc H W grid_x grid_y) (gathered inp_flat_ x1 y0);
                               mul_col (wd H W grid_x grid_y) (gathered inp_flat_ x1 y1)])))).
Proof.
  unfold gather_and_interpolate.
  rewrite base_size, y0_size. fold P. rewrite Z.eqb_refl. cbn [negb].
  rewrite inp_flat_ok. fold inp_flat_. cbn [bind].
  unfold idx_a, idx_b, idx_c, idx_d, base_y0, base_y1, dim2.
  rewrite !(corner_rows_ok inp_flat_) by (reflexivity || assumption). cbn [bind].
  fold (gathered inp_flat_ x0 y0). fold (gathered inp_flat_ x0 y1).
  fold (gathered inp_flat_ x1 y0). fold (gathered inp_flat_ x1 y1).
  unfold reshape.
  replace (size (sum_axis0 (mul_col (wa H W grid_x grid_y) (gathered inp_flat_ x0 y0))
                              [mul_col (wb H W grid_x grid_y) (gathered inp_flat_ x0 y1);
                               mul_col (wc H W grid_x grid_y) (gathered inp_flat_ x1 y0);
                               mul_col (wd H W grid_x grid_y) (gathered inp_flat_ x1 y1)]))
    with (N * P * (C * 1)) by reflexivity.
  rewrite all_nonneg_4 by lia.
  replace (prod [N; oH; oW; C] =? N * P * (C * 1)) with true
    by (symmetry; apply Z.eqb_eq; unfold P; cbn [prod fold_right]; ring).
  reflexivity.
Qed.

Lemma gathered_data (t : ndarray floatX) (xs ys : ndarray Z) (k : Z) :
  data (gathered t xs ys) k
  = data t
         (data (emap2 add64 (emap2 add64 (base N H W oH oW)
                                          (emap (fun v => mul64 v W) ys)) xs)
               (k / C) mod (N * H * W) * C + k mod C).
Proof. unfold gathered. rewrite data_mk. reflexivity. Qed.

Lemma inp_flat_data (k : Z) : data inp_flat_ k = data (inp_transposed inp) k.
Proof. unfold inp_flat_. rewrite data_mk. reflexivity. Qed.

Lemma gathered_value (xs ys : ndarray Z) (b c i j : Z) :
  0 <= b < N -> 0 <= c < C -> 0 <= i < oH -> 0 <= j < oW ->
  (forall m, 0 <= m < N * P -> 0 <= data xs m <= W - 1) ->
  (forall m, 0 <= m < N * P -> 0 <= data ys m <= H - 1) ->
  data (gathered inp_flat_ xs ys) (((b * oH + i) * oW + j) * C + c)
  = get inp [b; c; data ys ((b * oH + i) * oW + j); data xs ((b * oH + i) * oW + j)].
Proof.
  intros Hb Hc Hi Hj Hx Hy.
  rewrite gathered_data, inp_flat_data.
  destruct (div_mod_unique C ((b * oH + i) * oW + j) c Hc) as [-> ->].
  apply (corner_lookup xs ys b c i j); assumption.
Qed.

Lemma sum_axis0_data (t a b c : ndarray floatX) (k : Z) :
  data (sum_axis0 t [a; b; c]) k
  = fadd (fadd (fadd (fadd (of_int 0) (data t k)) (data a k)) (data b k)) (data c k).
Proof. unfold sum_axis0. rewrite data_mk. reflexivity. Qed.

Lemma mul_col_data (w t : ndarray floatX) (n c k : Z) :
  shape t = [n; c] ->
  data (mul_col w t) k = fmul (data w (k / c)) (data t k).
Proof. intros Hs. unfold mul_col. rewrite data_mk, Hs. reflexivity. Qed.

Lemma reshaped_data {A : Type} (s : list Z) (t : ndarray A) (k : Z) :
  data (mk_array s (data t)) k = data t k.
Proof. apply data_mk. Qed.

Lemma gather_value (b c i j : Z) :
  0 <= b < N -> 0 <= c < C -> 0 <= i < oH -> 0 <= j < oW ->
  get (dimshuffle_ [Some 0; Some 3; Some 1; Some 2]%nat
          (mk_array [N; oH; oW; C]
             (data (sum_axis0 (mul_col (wa H W grid_x grid_y) (gathered inp_flat_ x0 y0))
                              [mul_col (wb H W grid_x grid_y) (gathered inp_flat_ x0 y1);
                               mul_col (wc H W grid_x grid_y) (gathered inp_flat_ x1 y0);
                               mul_col (wd H W grid_x grid_y) (gathered inp_flat_ x1 y1)]))))
      [b; c; i; j]
  = interpolate (data (wa H W grid_x grid_y) ((b * oH + i) * oW + j))
                (data (wb H W grid_x grid_y) ((b * oH + i) * oW + j))
                (data (wc H W grid_x grid_y) ((b * oH + i) * oW + j))
                (data (wd H W grid_x grid_y) ((b * oH + i) * oW + j))
      (get inp [b; c; data y0 ((b * oH + i) * oW + j); data x0 ((b * oH + i) * oW + j)])
      (get inp [b; c; data y1 ((b * oH + i) * oW + j); data x0 ((b * oH + i) * oW + j)])
      (get inp [b; c; data y0 ((b * oH + i) * oW + j); data x1 ((b * oH + i) * oW + j)])
      (get inp [b; c; data y1 ((b * oH + i) * oW + j); data x1 ((b * oH + i) * oW + j)]).
Proof.
  intros Hb Hc Hi Hj.
  rewrite (get_dimshuffle_0312 _ N oH oW C) by (reflexivity || assumption).
  unfold get at 1. cbn [shape ravel prod fold_right].
  replace (b * (oH * (oW * (C * 1))) + (i * (oW * (C * 1)) + (j * (C * 1) + (c * 1 + 0))))
    with (((b * oH + i) * oW + j) * C + c) by ring.
  rewrite reshaped_data, sum_axis0_data.
  rewrite !(mul_col_data _ _ (N * P) C) by reflexivity.
  rewrite (gathered_value x0 y0 b c i j), (gathered_value x0 y1 b c i j),
    (gathered_value x1 y0 b c i j), (gathered_value x1 y1 b c i j) by assumption.
  destruct (div_mod_unique C ((b * oH + i) * oW + j) c Hc) as [-> _].
  reflexivity.
Qed.

End GatherValue.

(* ================================================================= *)
(** ** The sampler on a finite grid *)

Definition weight_a (px py : Qc) : Qc :=
  ((Zc (floorc px) + 1 - px) * (Zc (floorc py) + 1 - py))%Qc.
Definition weight_b (px py : Qc) : Qc :=
  ((Zc (floorc px) + 1 - px) * (py - Zc (floorc py)))%Qc.
Definition weight_c (px py : Qc) : Qc :=
  ((px - Zc (floorc px)) * (Zc (floorc py) + 1 - py))%Qc.
Definition weight_d (px py : Qc) : Qc :=
  ((px - Zc (floorc px)) * (py - Zc (floorc py)))%Qc.

Lemma weights_value (H W : Z) (grid_x grid_y : ndarray floatX) (m : Z) (gx gy : Qc) :
  data grid_x m = Fin gx -> data grid_y m = Fin gy ->
  data (wa H W grid_x grid_y) m = Fin (weight_a (pixel gx W) (pixel gy H)) /\
  data (wb H W grid_x grid_y) m = Fin (weight_b (pixel gx W) (pixel gy H)) /\
  data (wc H W grid_x grid_y) m = Fin (weight_c (pixel gx W) (pixel gy H)) /\
  data (wd H W grid_x grid_y) m = Fin (weight_d (pixel gx W) (pixel gy H)).
Proof.
  intros Hx Hy. unfold wa, wb, wc, wd, emap2. rewrite !data_mk.
  rewrite (x_value W grid_x m gx Hx), (y_value H grid_y m gy Hy).
  rewrite (x0_f_value W grid_x m gx Hx), (y0_f_value H grid_y m gy Hy).
  rewrite (x1_f_value W grid_x m gx Hx), (y1_f_value H grid_y m gy Hy).
  unfold of_int. rewrite !Zc_add, Zc_1. repeat split; reflexivity.
Qed.

Lemma location_range (N oH oW b i j : Z) :
  0 <= b < N -> 0 <= i < oH -> 0 <= j < oW ->
  0 <= (b * oH + i) * oW + j < N * (oH * oW).
Proof.
  intros Hb Hi Hj.
  pose proof (ravel_range [N; oH; oW] [b; i; j] (in_range_3 _ _ _ _ _ _ Hb Hi Hj)) as R.
  cbn [ravel prod fold_right] in R.
  replace (b * (oH * (oW * 1)) + (i * (oW * 1) + (j * 1 + 0)))
    with ((b * oH + i) * oW + j) in R by ring.
  replace (N * (oH * (oW * 1))) with (N * (oH * oW)) in R by ring.
  exact R.
Qed.

Section SamplerValue.

Variables inp grid : ndarray floatX.
Variables N C H W oH oW : Z.
Variable gv : Z -> Qc.
Variable border_mode : string.

Hypothesis inp_shape : shape inp = [N; C; H; W].
Hypothesis grid_shape : shape grid = [2; N; oH; oW].
Hypothesis N_ge : 0 <= N.
Hypothesis C_ge : 1 <= C.
Hypothesis H_ge : 2 <= H.
Hypothesis W_ge : 2 <= W.
Hypothesis oH_ge : 0 <= oH.
Hypothesis oW_ge : 0 <= oW.
Hypothesis inp_fits : N * H * W <= int64_max.
Hypothesis out_fits : N * oH * oW <= int64_max.
Hypothesis mode_ok : In border_mode ["nearest"; "mirror"; "wrap"]%string.
Hypothesis grid_finite :
  forall k, 0 <= k < 2 * (N * (oH * oW)) -> data grid k = Fin (gv k).

Let P := oH * oW.

Definition plane (r : Z) : ndarray floatX :=
  mk_array [N; oH; oW] (fun k => data grid (r * prod [N; oH; oW] + k)).

Lemma sampler_unfold :
  transformer_sampler_impl inp grid border_mode
  = sampler_body inp N C H W oH oW (plane 0) (plane 1) border_mode.
Proof.
  unfold transformer_sampler_impl, index0. rewrite inp_shape, grid_shape.
  reflexivity.
Qed.

Lemma plane_value (r m : Z) :
  0 <= r < 2 -> 0 <= m < N * P -> data (plane r) m = Fin (gv (r * (N * P) + m)).
Proof.
  intros Hr Hm. unfold plane. rewrite data_mk.
  replace (r * prod [N; oH; oW] + m) with (r * (N * P) + m)
    by (unfold P; cbn [prod fold_right]; ring).
  apply grid_finite. unfold P in *. destruct (Z.eq_dec r 0) as [->|]; [lia|]. replace r with 1 by lia. lia.
Qed.

(** Pixel coordinates and corner numbers of output location [m]. *)
Definition px (m : Z) : Qc := pixel (gv m) W.
Definition py (m : Z) : Qc := pixel (gv (N * (oH * oW) + m)) H.

Lemma sampler_value :
  exists out,
    transformer_sampler_impl inp grid border_mode = Ok out /\
    shape out = [N; C; oH; oW] /\
    forall b c i j, 0 <= b < N -> 0 <= c < C -> 0 <= i < oH -> 0 <= j < oW ->
      get out [b; c; i; j] =
      interpolate
        (Fin (weight_a (px ((b * oH + i) * oW + j)) (py ((b * oH + i) * oW + j))))
        (Fin (weight_b (px ((b * oH + i) * oW + j)) (py ((b * oH + i) * oW + j))))
        (Fin (weight_c (px ((b * oH + i) * oW + j)) (py ((b * oH + i) * oW + j))))
        (Fin (weight_d (px ((b * oH + i) * oW + j)) (py ((b * oH + i) * oW + j))))
        (get inp [b; c;
                  border_index border_mode H (floorc (py ((b * oH + i) * oW + j)));
                  border_index border_mode W (floorc (px ((b * oH + i) * oW + j)))])
        (get inp [b; c;
                  border_index border_mode H (floorc (py ((b * oH + i) * oW + j)) + 1);
                  border_index border_mode W (floorc (px ((b * oH + i) * oW + j)))])
        (get inp [b; c;
                  border_index border_mode H (floorc (py ((b * oH + i) * oW + j)));
                  border_index border_mode W (floorc (px ((b * oH + i) * oW + j)) + 1)])
        (get inp [b; c;
                  border_index border_mode H (floorc (py ((b * oH + i) * oW + j)) + 1);
                  border_index border_mode W (floorc (px ((b * oH + i) * oW + j)) + 1)]).
Proof.
  rewrite sampler_unfold. unfold sampler_body.
  destruct (int_indices_value H W (plane 0) (plane 1) H_ge W_ge border_mode mode_ok)
    as (x0 & x1 & y0 & y1 & E & Sy & Vx & Vy).
  rewrite E. cbn [bind].
  assert (Hmin : int64_min < 0) by (unfold int64_min; lia).
  assert (X : forall m, 0 <= m < N * (oH * oW) ->
              data x0 m = border_index border_mode W (floorc (px m)) /\
              data x1 m = border_index border_mode W (floorc (px m) + 1) /\
              data y0 m = border_index border_mode H (floorc (py m)) /\
              data y1 m = border_index border_mode H (floorc (py m) + 1)).
  { intros m Hm.
    assert (Hn : 1 <= N) by (destruct (Z.eq_dec N 0) as [->|]; lia).
    destruct (le_prod3 N H W) as (Ph & Pw & _); try lia.
    pose proof (plane_value 0 m ltac:(lia) Hm) as G0.
    pose proof (plane_value 1 m ltac:(lia) Hm) as G1.
    replace (0 * (N * P) + m) with m in G0 by ring.
    replace (1 * (N * P) + m) with (N * (oH * oW) + m) in G1 by (unfold P; ring).
    destruct (Vx m _ G0) as (V0 & V1). destruct (Vy m _ G1) as (V2 & V3).
    pose proof (border_index_range border_mode W (floorc (px m)) mode_ok W_ge).
    pose proof (border_index_range border_mode W (floorc (px m) + 1) mode_ok W_ge).
    pose proof (border_index_range border_mode H (floorc (py m)) mode_ok H_ge).
    pose proof (border_index_range border_mode H (floorc (py m) + 1) mode_ok H_ge).
    unfold of_int in V0, V1, V2, V3. fold (px m) in V0, V1. fold (py m) in V2, V3.
    rewrite to_int64_int in V0, V1, V2, V3 by lia. auto. }
  assert (R : forall m, 0 <= m < N * (oH * oW) ->
              0 <= data x0 m <= W - 1 /\ 0 <= data x1 m <= W - 1 /\
              0 <= data y0 m <= H - 1 /\ 0 <= data y1 m <= H - 1).
  { intros m Hm. destruct (X m Hm) as (-> & -> & -> & ->).
    repeat split; apply border_index_range; assumption. }
  assert (Sy' : size y0 = N * (oH * oW)).
  { rewrite Sy. unfold size, plane. cbn [shape prod fold_right]. ring. }
  rewrite (gather_ok inp (plane 0) (plane 1) N C H W oH oW x0 x1 y0 y1);
    try assumption; try (intros m Hm; apply (R m Hm)).
  eexists. split; [reflexivity|]. split; [reflexivity|].
  intros b c i j Hb Hc Hi Hj.
  rewrite (gather_value inp (plane 0) (plane 1) N C H W oH oW x0 x1 y0 y1);
    try assumption; try (intros m Hm; apply (R m Hm)).
  set (m := (b * oH + i) * oW + j).
  assert (Hm : 0 <= m < N * (oH * oW)) by (apply location_range; assumption).
  destruct (X m Hm) as (-> & -> & -> & ->).
  pose proof (plane_value 0 m ltac:(lia) Hm) as G0.
  pose proof (plane_value 1 m ltac:(lia) Hm) as G1.
  replace (0 * (N * P) + m) with m in G0 by ring.
  replace (1 * (N * P) + m) with (N * (oH * oW) + m) in G1 by (unfold P; ring).
  destruct (weights_value H W (plane 0) (plane 1) m _ _ G0 G1) as (-> & -> & -> & ->).
  reflexivity.
Qed.

End SamplerValue.

(* ================================================================= *)
(** ** Samples of the linspace and whole-number coordinates *)






(* ================================================================= *)
(** ** The gradient with respect to theta *)












Section GridGradient.

Variables N oH oW : Z.
Variable mesh : ndarray floatX.

Hypothesis N_ge : 0 <= N.
Hypothesis oH_ge : 0 <= oH.
Hypothesis oW_ge : 0 <= oW.
Hypothesis oH_ne : oH <> 1.
Hypothesis oW_ne : oW <> 1.
Hypothesis mesh_ok : _meshgrid oH oW = Ok mesh.

Let P := oH * oW.







Lemma data_finite (s : list Z) (v : Z -> Qc) (k : Z) :
  data (finite_array s v) k = Fin (v k).
Proof. reflexivity. Qed.


End GridGradient.



(* ================================================================= *)
(** ** The gradient with respect to the input *)



(** Flat position of pixel [(b, c, y, x)] of an input of shape (N, C, H, W). *)
Definition pix (C H W b c y x : Z) : Z := ((b * C + c) * H + y) * W + x.

(** Entry [(b, c, l)] of the sampler's output on an input of finite values [iv]. *)
Definition sampled (border_mode : string) (N C H W oH oW : Z) (gv iv : Z -> Qc)
    (b c l : Z) : Qc :=
  let qx := px W gv (b * (oH * oW) + l) in
  let qy := py N H oH oW gv (b * (oH * oW) + l) in
  let y0 := border_index border_mode H (floorc qy) in
  let y1 := border_index border_mode H (floorc qy + 1) in
  let x0 := border_index border_mode W (floorc qx) in
  let x1 := border_index border_mode W (floorc qx + 1) in
  (Zc 0 + weight_a qx qy * iv (pix C H W b c y0 x0)
   + weight_b qx qy * iv (pix C H W b c y1 x0)
   + weight_c qx qy * iv (pix C H W b c y0 x1)
   + weight_d qx qy * iv (pix C H W b c y1 x1))%Qc.

Lemma pix_ravel (N C H W b c y x : Z) :
  ravel [N; C; H; W] [b; c; y; x] = pix C H W b c y x.
Proof. unfold pix. cbn [ravel prod fold_right]. ring. Qed.



Section InputGradient.

Variables N C H W oH oW : Z.
Variables gv : Z -> Qc.
Variable border_mode : string.

Hypothesis N_ge : 0 <= N.
Hypothesis C_ge : 1 <= C.
Hypothesis H_ge : 2 <= H.
Hypothesis W_ge : 2 <= W.
Hypothesis oH_ge : 0 <= oH.
Hypothesis oW_ge : 0 <= oW.
Hypothesis inp_fits : N * H * W <= int64_max.
Hypothesis out_fits : N * oH * oW <= int64_max.
Hypothesis mode_ok : In border_mode ["nearest"; "mirror"; "wrap"]%string.

Let P := oH * oW.
Let grid := finite_array [2; N; oH; oW] gv.





End InputGradient.






(* ================================================================= *)
(** ** Further properties of the grid generator *)

Lemma fadd_0_fmul_1_l (a : floatX) : fadd (of_int 0) (fmul (of_int 1) a) = a.
Proof.
  destruct a as [q | [|] | ]; try reflexivity.
  unfold of_int. cbn [fmul fadd]. f_equal. rewrite Zc_0, Zc_1. ring.
Qed.

Lemma fadd_0_fmul_1_r (a : floatX) : fadd (of_int 0) (fmul a (of_int 1)) = a.
Proof.
  destruct a as [q | [|] | ]; try reflexivity.
  unfold of_int. cbn [fmul fadd]. f_equal. rewrite Zc_0, Zc_1. ring.
Qed.

(** X2. For non-negative extents [_meshgrid] returns a tensor of shape
    (3, height * width) whose column for row [i] and column [j] of the
    output, at position [i * width + j], holds the [j]-th sample of the
    width linspace, the [i]-th sample of the height linspace, and 1. *)
Theorem meshgrid_layout (height width : Z) :
  0 <= height -> 0 <= width ->
  exists mesh,
    _meshgrid height width = Ok mesh /\
    shape mesh = [3; height * width] /\
    forall i j, 0 <= i < height -> 0 <= j < width ->
      get mesh [0; i * width + j]
      = data (_linspace (of_int (-1)) (of_int 1) width) j /\
      get mesh [1; i * width + j]
      = data (_linspace (of_int (-1)) (of_int 1) height) i /\
      get mesh [2; i * width + j] = of_int 1.
Proof.
  intros HH HW.
  destruct (meshgrid_value height width HH HW) as (mesh & E & S & V).
  exists mesh. split; [exact E|]. split; [exact S|].
  intros i j Hi Hj.
  assert (Hp : 0 <= i * width + j < height * width) by nia.
  destruct (V _ Hp) as (V0 & V1 & V2).
  destruct (div_mod_unique width i j Hj) as [Ed Em].
  rewrite Ed, Em in *.
  rewrite fadd_0_fmul_1_l in V0. rewrite fadd_0_fmul_1_r in V1.
  split; [exact V0|]. split; [exact V1 | exact V2].
Qed.

Lemma meshgrid_layout_witness :
  exists mesh,
    _meshgrid 2 3 = Ok mesh /\
    shape mesh = [3; 2 * 3] /\
    forall i j, 0 <= i < 2 -> 0 <= j < 3 ->
      get mesh [0; i * 3 + j]
      = data (_linspace (of_int (-1)) (of_int 1) 3) j /\
      get mesh [1; i * 3 + j]
      = data (_linspace (of_int (-1)) (of_int 1) 2) i /\
      get mesh [2; i * 3 + j] = of_int 1.
Proof.
  apply (meshgrid_layout 2 3); lia.
Defined.



(* ================================================================= *)
(** ** Further properties of the sampler *)

Lemma Qc_sub_nonneg (a b : Qc) : (a <= b <-> 0 <= b - a)%Qc.
Proof. split; intros H; qc_to_q; lra. Qed.

Lemma floorc_range (q : Qc) (a b : Z) :
  (Zc a <= q)%Qc -> (q <= Zc b)%Qc -> a <= floorc q <= b.
Proof.
  intros La Ub. destruct (floorc_spec q) as [L U]. split.
  - assert (Hlt : (Zc a < Zc (floorc q + 1))%Qc).
    { rewrite Zc_add, Zc_1. qc_to_q. lra. }
    apply <- Zc_lt in Hlt. lia.
  - apply <- Zc_le. qc_to_q. lra.
Qed.

Lemma Q_half_scale (g e : Q) :
  (- (1) <= g -> g <= 1 -> 0 <= e ->
   0 <= (g + 1) * / 2 * e /\ (g + 1) * / 2 * e <= e)%Q.
Proof.
  intros L U He. change (/ 2)%Q with (1 # 2)%Q.
  assert (H0 : (0 <= (g + 1) * (1 # 2))%Q) by lra.
  assert (H1 : ((g + 1) * (1 # 2) <= 1)%Q) by lra.
  split; nra.
Qed.

Lemma pixel_range (g : Qc) (n : Z) :
  1 <= n -> (- (1) <= g)%Qc -> (g <= 1)%Qc ->
  (Zc 0 <= pixel g n)%Qc /\ (pixel g n <= Zc (n - 1))%Qc.
Proof.
  intros Hn L U. unfold pixel. rewrite Zc_sub, Zc_1, Zc_0.
  assert (Hz : (0 <= Zc n - 1)%Qc).
  { apply -> Qc_sub_nonneg. rewrite <- Zc_1. apply -> Zc_le. exact Hn. }
  set (e := (Zc n - 1)%Qc) in *. clearbody e.
  split; qc_to_q; change (inject_Z 2) with 2%Q;
    apply (Q_half_scale g e L U Hz).
Qed.

Lemma border_index_inside (border_mode : string) (n z : Z) :
  In border_mode ["nearest"; "mirror"; "wrap"]%string ->
  2 <= n -> 0 <= z <= n - 1 -> border_index border_mode n z = z.
Proof.
  intros Hm Hn Hz. cbn [In] in Hm.
  destruct Hm as [<- | [<- | [<- | []]]]; unfold border_index; cbn [String.eqb Ascii.eqb Bool.eqb].
  - lia.
  - rewrite (Z.mod_small z) by lia.
    destruct (Z.eq_dec z 0) as [->|Hz0].
    + cbn [Z.opp]. rewrite Z.mod_0_l by lia. reflexivity.
    + rewrite <- (Z.mod_unique (- z) (2 * (n - 1)) (-1) (2 * (n - 1) - z)); lia.
  - apply Z.mod_small. lia.
Qed.

(** Inside the image the border mode leaves the lower corner where it is,
    and the upper corner too unless its weight is zero. *)
Lemma inside_cases (mode1 mode2 : string) (n : Z) (q : Qc) :
  In mode1 ["nearest"; "mirror"; "wrap"]%string ->
  In mode2 ["nearest"; "mirror"; "wrap"]%string ->
  2 <= n -> (Zc 0 <= q)%Qc -> (q <= Zc (n - 1))%Qc ->
  border_index mode1 n (floorc q) = border_index mode2 n (floorc q) /\
  (border_index mode1 n (floorc q + 1) = border_index mode2 n (floorc q + 1) \/
   (q - Zc (floorc q))%Qc = 0%Qc).
Proof.
  intros H1 H2 Hn L U.
  pose proof (floorc_range q 0 (n - 1) L U) as Hf.
  split.
  - rewrite !border_index_inside by assumption. reflexivity.
  - destruct (Z.eq_dec (floorc q) (n - 1)) as [E|E].
    + right. destruct (floorc_spec q) as [Lq _]. rewrite E in *.
      apply Qcle_antisym; qc_to_q; lra.
    + left. rewrite !border_index_inside by (assumption || lia). reflexivity.
Qed.

Section SamplerEntries.

Variables inp grid : ndarray floatX.
Variables N C H W oH oW : Z.
Variables gv iv : Z -> Qc.
Variable border_mode : string.

Hypothesis inp_shape : shape inp = [N; C; H; W].
Hypothesis grid_shape : shape grid = [2; N; oH; oW].
Hypothesis N_ge : 0 <= N.
Hypothesis C_ge : 1 <= C.
Hypothesis H_ge : 2 <= H.
Hypothesis W_ge : 2 <= W.
Hypothesis oH_ge : 0 <= oH.
Hypothesis oW_ge : 0 <= oW.
Hypothesis inp_fits : N * H * W <= int64_max.
Hypothesis out_fits : N * oH * oW <= int64_max.
Hypothesis mode_ok : In border_mode ["nearest"; "mirror"; "wrap"]%string.
Hypothesis inp_finite :
  forall k, 0 <= k < N * (C * (H * W)) -> data inp k = Fin (iv k).
Hypothesis grid_finite :
  forall k, 0 <= k < 2 * (N * (oH * oW)) -> data grid k = Fin (gv k).

Lemma get_pixel (b c y x : Z) :
  0 <= b < N -> 0 <= c < C -> 0 <= y < H -> 0 <= x < W ->
  get inp [b; c; y; x] = Fin (iv (pix C H W b c y x)).
Proof.
  intros Hb Hc Hy Hx. unfold get. rewrite inp_shape.
  pose proof (ravel_range [N; C; H; W] [b; c; y; x]
                (in_range_4 _ _ _ _ _ _ _ _ Hb Hc Hy Hx)) as R.
  rewrite pix_ravel in *. apply inp_finite.
  cbn [prod fold_right] in R. lia.
Qed.

Lemma sampler_entry :
  exists out,
    transformer_sampler_impl inp grid border_mode = Ok out /\
    shape out = [N; C; oH; oW] /\
    forall b c i j, 0 <= b < N -> 0 <= c < C -> 0 <= i < oH -> 0 <= j < oW ->
      get out [b; c; i; j]
      = Fin (sampled border_mode N C H W oH oW gv iv b c (i * oW + j)).
Proof.
  destruct (sampler_value inp grid N C H W oH oW gv border_mode inp_shape grid_shape
              N_ge C_ge H_ge W_ge oH_ge oW_ge inp_fits out_fits mode_ok grid_finite)
    as (out & E & S & V).
  exists out. split; [exact E|]. split; [exact S|].
  intros b c i j Hb Hc Hi Hj. rewrite (V b c i j Hb Hc Hi Hj).
  replace ((b * oH + i) * oW + j) with (b * (oH * oW) + (i * oW + j)) by ring.
  set (m := b * (oH * oW) + (i * oW + j)).
  pose proof (border_index_range border_mode H (floorc (py N H oH oW gv m)) mode_ok H_ge).
  pose proof (border_index_range border_mode H (floorc (py N H oH oW gv m) + 1) mode_ok H_ge).
  pose proof (border_index_range border_mode W (floorc (px W gv m)) mode_ok W_ge).
  pose proof (border_index_range border_mode W (floorc (px W gv m) + 1) mode_ok W_ge).
  rewrite !get_pixel by lia.
  reflexivity.
Qed.

End SamplerEntries.



(** X6. Inside the image the border mode plays no part: for a finite input
    and a grid whose values all lie in [-1, 1], the sampler returns the same
    entries under 'nearest', 'mirror' and 'wrap'. *)
Theorem border_mode_irrelevant_inside
    (N C H W oH oW : Z) (v gv : Z -> Qc) (mode1 mode2 : string) :
  0 <= N -> 1 <= C -> 2 <= H -> 2 <= W -> 0 <= oH -> 0 <= oW ->
  N * H * W <= int64_max -> N * oH * oW <= int64_max ->
  In mode1 ["nearest"; "mirror"; "wrap"]%string ->
  In mode2 ["nearest"; "mirror"; "wrap"]%string ->
  (forall k, 0 <= k < 2 * (N * (oH * oW)) -> (- (1) <= gv k)%Qc /\ (gv k <= 1)%Qc) ->
  exists out1 out2,
    transformer_sampler_impl (finite_array [N; C; H; W] v)
                             (finite_array [2; N; oH; oW] gv) mode1 = Ok out1 /\
    transformer_sampler_impl (finite_array [N; C; H; W] v)
                             (finite_array [2; N; oH; oW] gv) mode2 = Ok out2 /\
    shape out1 = shape out2 /\
    forall b c i j, 0 <= b < N -> 0 <= c < C -> 0 <= i < oH -> 0 <= j < oW ->
      get out1 [b; c; i; j] = get out2 [b; c; i; j].
Proof.
  intros HN HC HH HW HoH HoW Hi Ho Hm1 Hm2 Hg.
  destruct (sampler_entry (finite_array [N; C; H; W] v) (finite_array [2; N; oH; oW] gv)
              N C H W oH oW gv v mode1 eq_refl eq_refl HN HC HH HW HoH HoW
              Hi Ho Hm1 (fun k _ => data_finite _ v k) (fun k _ => data_finite _ gv k))
    as (out1 & E1 & S1 & V1).
  destruct (sampler_entry (finite_array [N; C; H; W] v) (finite_array [2; N; oH; oW] gv)
              N C H W oH oW gv v mode2 eq_refl eq_refl HN HC HH HW HoH HoW
              Hi Ho Hm2 (fun k _ => data_finite _ v k) (fun k _ => data_finite _ gv k))
    as (out2 & E2 & S2 & V2).
  exists out1, out2. split; [exact E1|]. split; [exact E2|].
  split; [rewrite S1, S2; reflexivity|].
  intros b c i j Hb Hc Hi' Hj.
  rewrite (V1 b c i j Hb Hc Hi' Hj), (V2 b c i j Hb Hc Hi' Hj). f_equal.
  pose proof (location_range N oH oW b i j Hb Hi' Hj) as Hl.
  replace ((b * oH + i) * oW + j) with (b * (oH * oW) + (i * oW + j)) in Hl by ring.
  unfold sampled. cbv zeta.
  set (m := b * (oH * oW) + (i * oW + j)) in *.
  assert (Hx : (Zc 0 <= px W gv m)%Qc /\ (px W gv m <= Zc (W - 1))%Qc).
  { unfold px. apply pixel_range; [lia | apply Hg; lia | apply Hg; lia]. }
  assert (Hy : (Zc 0 <= py N H oH oW gv m)%Qc /\ (py N H oH oW gv m <= Zc (H - 1))%Qc).
  { unfold py. apply pixel_range; [lia | apply Hg; lia | apply Hg; lia]. }
  set (qx := px W gv m) in *. set (qy := py N H oH oW gv m) in *.
  destruct (inside_cases mode1 mode2 W qx Hm1 Hm2 HW (proj1 Hx) (proj2 Hx))
    as [Ex0 Ex1].
  destruct (inside_cases mode1 mode2 H qy Hm1 Hm2 HH (proj1 Hy) (proj2 Hy))
    as [Ey0 Ey1].
  rewrite Ex0, Ey0. unfold weight_a, weight_b, weight_c, weight_d.
  destruct Ex1 as [Ex1 | Fx]; destruct Ey1 as [Ey1 | Fy];
    rewrite ?Ex1, ?Ey1, ?Fx, ?Fy; ring.
Qed.

Lemma border_mode_irrelevant_inside_witness :
  exists out1 out2,
    transformer_sampler_impl
      (finite_array [1; 1; 2; 2] (fun k => Zc (k + 1)))
      (finite_array [2; 1; 3; 3] (fun k => if k <? 9 then Q2Qc (1 # 3) else Q2Qc (-1 # 2)))
      "nearest" = Ok out1 /\
    transformer_sampler_impl
      (finite_array [1; 1; 2; 2] (fun k => Zc (k + 1)))
      (finite_array [2; 1; 3; 3] (fun k => if k <? 9 then Q2Qc (1 # 3) else Q2Qc (-1 # 2)))
      "wrap" = Ok out2 /\
    shape out1 = shape out2 /\
    forall b c i j, 0 <= b < 1 -> 0 <= c < 1 -> 0 <= i < 3 -> 0 <= j < 3 ->
      get out1 [b; c; i; j] = get out2 [b; c; i; j].
Proof.
  apply (border_mode_irrelevant_inside 1 1 2 2 3 3 (fun k => Zc (k + 1))
           (fun k => if k <? 9 then Q2Qc (1 # 3) else Q2Qc (-1 # 2))
           "nearest" "wrap");
    try solve [lia | unfold int64_max; lia | cbn; tauto].
  intros k _. destruct (k <? 9); split; vm_compute; discriminate.
Defined.





(* ================================================================= *)
(** ** What the generator and the sampler accept *)

(** X11. The grid generator checks a rank-3 theta only through sizes: for
    non-negative output dimensions, a theta of shape (Nt, a, k) is accepted
    exactly when [k = 3] (the product with the 3-row mesh) and
    [Nt * a * out_height * out_width = 2 * N * out_height * out_width]
    (the final reshape); neither [a = 2] nor [Nt = N] is checked as such. *)
Theorem grid_generator_checks_only_sizes
    (theta : ndarray floatX) (Nt a k N C oH oW : Z) :
  shape theta = [Nt; a; k] -> 0 <= N -> 0 <= oH -> 0 <= oW ->
  is_ok (transformer_grid_impl theta (N, C, oH, oW))
  = (k =? 3) && (Nt * a * (oH * oW) =? 2 * N * (oH * oW)).
Proof.
  intros Hs HN HH HW.
  destruct (meshgrid_value oH oW HH HW) as (mesh & Em & Sm & _).
  unfold transformer_grid_impl. rewrite Em. cbn [bind].
  unfold dot. rewrite Hs, Sm. cbn [rev app].
  destruct (k =? 3); [|reflexivity].
  cbn [bind andb]. unfold dimshuffle, ndim.
  cbn [shape List.length valid_pattern pattern_axes flat_map app Nat.eqb
       seq forallb existsb andb orb bind].
  unfold reshape, size.
  cbn [shape dimshuffle_ dimshuffle_shape map nth prod fold_right].
  replace (all_nonneg [2; N; oH; oW]) with true
    by (symmetry; unfold all_nonneg; cbn [forallb];
        rewrite !andb_true_r, !andb_true_iff, !Z.leb_le; lia).
  cbn [andb].
  replace (2 * (N * (oH * (oW * 1)))) with (2 * N * (oH * oW)) by ring.
  replace (a * (Nt * (oH * oW * 1))) with (Nt * a * (oH * oW)) by ring.
  rewrite (Z.eqb_sym (Nt * a * (oH * oW))).
  destruct (2 * N * (oH * oW) =? Nt * a * (oH * oW)); reflexivity.
Qed.

Lemma grid_generator_checks_only_sizes_witness :
  is_ok (transformer_grid_impl (of_ints [1; 4; 3] [1; 0; 0; 0; 1; 0; 1; 0; 0; 0; 1; 0])
                               (2, 1, 2, 2))
  = (3 =? 3) && (1 * 4 * (2 * 2) =? 2 * 2 * (2 * 2)).
Proof.
  apply (grid_generator_checks_only_sizes
           (of_ints [1; 4; 3] [1; 0; 0; 0; 1; 0; 1; 0; 0; 0; 1; 0]) 1 4 3 2 1 2 2);
    solve [reflexivity | lia].
Defined.

(** X12. The sampler rejects a grid made for another batch size: with an
    input of shape (N, C, H, W), a grid of shape (2, Ng, out_height,
    out_width) whose number of locations [Ng * out_height * out_width]
    differs from [N * out_height * out_width], and one of the three border
    modes, the sum of the batch offsets and the row indices raises
    ValueError; nothing is gathered. *)
Theorem sampler_rejects_grid_of_other_batch
    (inp grid : ndarray floatX) (N C H W Ng oH oW : Z) (border_mode : string) :
  shape inp = [N; C; H; W] -> shape grid = [2; Ng; oH; oW] ->
  0 <= N -> 0 <= oH -> 0 <= oW -> oH * oW <= int64_max ->
  In border_mode ["nearest"; "mirror"; "wrap"]%string ->
  N * (oH * oW) <> Ng * (oH * oW) ->
  transformer_sampler_impl inp grid border_mode
  = Raise (ValueError "Input dimension mis-match").
Proof.
  intros Hs Hg HN HH HW Hfit Hm Hne.
  unfold transformer_sampler_impl, index0. rewrite Hs, Hg.
  cbn [Z.opp Z.leb Z.ltb Z.compare andb bind Pos.compare Pos.compare_cont].
  unfold sampler_body, int_indices, border_indices.
  assert (Hsize : (size (base N H W oH oW)
                   =? Ng * (oH * (oW * 1)) * 1) = false).
  { apply Z.eqb_neq.
    unfold base, repeat_each, size, arange. cbn [shape emap prod fold_right].
    rewrite Z.max_r by lia.
    rewrite mul64_small
      by (unfold int64_min; split; [assert (0 <= oH * oW) by nia; lia | lia]).
    rewrite Z.max_r by nia. rewrite !Z.mul_1_r. exact Hne. }
  cbn [In] in Hm.
  destruct Hm as [<- | [<- | [<- | []]]];
    cbn [String.eqb Ascii.eqb Bool.eqb bind];
    unfold gather_and_interpolate;
    match goal with
    | |- context [size (base ?n ?h ?w ?a ?b) =? size ?t] =>
        change (size t) with (Ng * (oH * (oW * 1)) * 1)
    end;
    rewrite Hsize; reflexivity.
Qed.

Lemma sampler_rejects_grid_of_other_batch_witness :
  transformer_sampler_impl (of_ints [2; 1; 2; 2] [1; 2; 3; 4; 5; 6; 7; 8])
                           (finite_array [2; 1; 2; 2] (fun k => Zc 0)) "nearest"
  = Raise (ValueError "Input dimension mis-match").
Proof.
  apply (sampler_rejects_grid_of_other_batch
           (of_ints [2; 1; 2; 2] [1; 2; 3; 4; 5; 6; 7; 8])
           (finite_array [2; 1; 2; 2] (fun k => Zc 0)) 2 1 2 2 1 2 2 "nearest");
    solve [reflexivity | lia | unfold int64_max; lia | cbn; tauto].
Defined.

(* ================================================================= *)
(** ** The mirror mode *)





(* ================================================================= *)
(** ** Negative extents *)

(** X15. A negative output height or width makes the grid generator raise
    ValueError (no tensor of ones has a negative dimension), whatever theta
    is; no grid is returned. *)
Theorem grid_generator_rejects_negative_extents
    (theta : ndarray floatX) (N C oH oW : Z) :
  oH < 0 \/ oW < 0 ->
  transformer_grid_impl theta (N, C, oH, oW)
  = Raise (ValueError "negative dimensions are not allowed").
Proof.
  intros Hneg. unfold transformer_grid_impl, _meshgrid.
  destruct (Z.leb_spec 0 oH) as [HH|HH].
  - assert (HW : oW < 0) by lia.
    rewrite ones_ok by (repeat constructor; lia). cbn [bind].
    unfold dimshuffle at 1. unfold ndim, _linspace, arange.
    cbn [shape emap List.length valid_pattern pattern_axes flat_map app Nat.eqb
         seq forallb existsb andb orb bind].
    erewrite dot_ok; [|reflexivity|reflexivity]. cbn [bind].
    unfold dimshuffle, ndim.
    cbn [shape emap List.length valid_pattern pattern_axes flat_map app Nat.eqb
         seq forallb existsb andb orb bind].
    unfold ones, all_nonneg. cbn [forallb].
    destruct (Z.leb_spec 0 oW) as [HW'|HW']; [lia|]. reflexivity.
  - unfold ones at 1, all_nonneg. cbn [forallb].
    destruct (Z.leb_spec 0 oH) as [HH'|HH']; [lia|]. reflexivity.
Qed.

Lemma grid_generator_rejects_negative_extents_witness :
  transformer_grid_impl theta_identity_1 (1, 1, 2, -1)
  = Raise (ValueError "negative dimensions are not allowed").
Proof.
  apply (grid_generator_rejects_negative_extents theta_identity_1 1 1 2 (-1)). lia.
Defined.

(* ================================================================= *)
(** ** Gather indices of finite coordinates *)






(** Arithmetic [A] computes [n - 1] and [2 * (n - 1)] without rounding. *)
Definition extent_exact (A : arith) (n : Z) : bool :=
  feqb (r_sub A (of_int n) (of_int 1)) (of_int (n - 1))
  && feqb (r_mul A (of_int 2) (r_sub A (of_int n) (of_int 1))) (of_int (2 * (n - 1))).


(** binary64 does so for the extents of images: here up to 2048, and for
    2^31 and 2^52. *)
Lemma binary64_extents_exact :
  forallb (extent_exact binary64) (map Z.of_nat (seq 2 2047) ++ [2 ^ 31; 2 ^ 52]) = true.
Proof. vm_compute. reflexivity. Qed.








(* ================================================================= *)
(** ** The identity transform in binary64 *)







(* ================================================================= *)
(** ** The interpolation weights in binary64 *)







